(** * Catalog controllers: product, tax and attribute request handlers

    A shallow embedding of the three controller classes
    ([ProductController], [TaxController], [AttributeController]) and of the
    fragment of JavaScript they rely on: the coercions behind [isNaN],
    [parseInt], [||], template literals and the arithmetic of
    [(page - 1) * limit] and [Math.ceil(count / limit)].

    Conventions of the model.
    - A Number is a binary64 double: NaN, the two infinities, the two
      zeros, or a non-zero rational that a double holds.  Every conversion
      and arithmetic operation rounds its exact result to the nearest
      double, ties to even, with overflow to an infinity and underflow to
      a zero.
    - A string is the sequence of bytes of its UTF-8 encoding; the white
      space recognised by the numeric conversions is that of the language,
      the six ASCII characters and the Unicode spaces, line separators and
      byte order mark.
    - Query-string and route parameters are strings, or absent.
    - The object-relational mapper is a collaborator: a handler receives it
      as a record of functions that either resolve or reject. *)

From Stdlib Require Import ZArith QArith Qround String Ascii List Bool Lia.
From Stdlib Require Import DecimalString.
From stdpp Require Import base option strings gmap.
Import ListNotations.

Set Warnings "-register-all".

Local Open Scope string_scope.
Local Open Scope Z_scope.

(** ** JavaScript numbers *)

Module JS.

Inductive num : Type :=
| NaN
| Inf (neg : bool)
| Zero (neg : bool)
| Fin (q : Q).

(** *** Rounding to binary64

    A Number is a double.  The result of an operation is the exact value
    rounded to the nearest double, ties to the even significand; what lies
    beyond the largest double becomes an infinity and what rounds to nothing
    a zero of the same sign. *)

(** [n / d] rounded to the nearest integer, a tie to the even one. *)
Definition round_half_even (n : Z) (d : positive) : Z :=
  let f := n / Z.pos d in
  match 2 * (n mod Z.pos d) ?= Z.pos d with
  | Lt => f
  | Gt => f + 1
  | Eq => if Z.even f then f else f + 1
  end.

(** The exponent of the power of two at or below [n / d], for [n] positive. *)
Definition ilog2 (n : Z) (d : positive) : Z :=
  let t := Z.log2 n - Z.log2 (Z.pos d) in
  if Z.pos d * 2 ^ Z.max t 0 <=? n * 2 ^ Z.max (- t) 0 then t else t - 1.

(** The exponent of the last place of the 53-bit significand of [n / d];
    the subnormal numbers share the exponent -1074. *)
Definition binade (n : Z) (d : positive) : Z :=
  Z.max (ilog2 n d - 52) (- 1074).

(** [n / d] in units of [2 ^ e], rounded. *)
Definition mantissa (n : Z) (d : positive) (e : Z) : Z :=
  round_half_even (n * 2 ^ Z.max (- e) 0) (d * Z.to_pos (2 ^ Z.max e 0)).

(** The double of significand [m] and exponent [e].  A significand rounded
    up to 2^53 is still a double unless the exponent was the largest. *)
Definition pack (neg : bool) (m e : Z) : num :=
  if m =? 0 then Zero neg
  else if (971 <? e) || ((e =? 971) && (2 ^ 53 <=? m)) then Inf neg
  else
    let s := if neg then - m else m in
    Fin (Qred (if e <? 0 then s # Z.to_pos (2 ^ (- e))
               else inject_Z (s * 2 ^ e))).

(** A non-zero rational as a double. *)
Definition round64 (q : Q) : num :=
  let r := Qred q in
  let n := Z.abs (Qnum r) in
  let e := binade n (Qden r) in
  pack (Qnum r <? 0) (mantissa n (Qden r) e) e.

(** [Fin q] is used with [q] a non-zero double in lowest terms; [mk_fin] is
    the only way the operations below build one.  An exact zero takes the
    sign the operation gives it. *)
Definition mk_fin (negzero : bool) (q : Q) : num :=
  if Qeq_bool q 0 then Zero negzero else round64 q.

Definition of_Z (z : Z) : num := mk_fin false (inject_Z z).

Definition is_neg (q : Q) : bool := Qnum q <? 0.

(** [x - y] *)
Definition num_sub (x y : num) : num :=
  match x, y with
  | NaN, _ | _, NaN => NaN
  | Inf a, Inf b => if Bool.eqb a b then NaN else Inf a
  | Inf a, _ => Inf a
  | _, Inf b => Inf (negb b)
  | Zero a, Zero b => Zero (a && negb b)
  | Zero _, Fin q => Fin (Qred (Qopp q))
  | Fin p, Zero _ => Fin p
  | Fin p, Fin q => mk_fin false (Qminus p q)
  end.

(** [x * y] *)
Definition num_mul (x y : num) : num :=
  match x, y with
  | NaN, _ | _, NaN => NaN
  | Inf _, Zero _ | Zero _, Inf _ => NaN
  | Inf a, Inf b => Inf (xorb a b)
  | Inf a, Fin q | Fin q, Inf a => Inf (xorb a (is_neg q))
  | Zero a, Zero b => Zero (xorb a b)
  | Zero a, Fin q | Fin q, Zero a => Zero (xorb a (is_neg q))
  | Fin p, Fin q => mk_fin false (Qmult p q)
  end.

(** [x / y] *)
Definition num_div (x y : num) : num :=
  match x, y with
  | NaN, _ | _, NaN => NaN
  | Inf _, Inf _ => NaN
  | Zero _, Zero _ => NaN
  | Inf a, Zero b => Inf (xorb a b)
  | Inf a, Fin q => Inf (xorb a (is_neg q))
  | Zero a, Inf b => Zero (xorb a b)
  | Zero a, Fin q => Zero (xorb a (is_neg q))
  | Fin p, Zero b => Inf (xorb (is_neg p) b)
  | Fin p, Inf b => Zero (xorb (is_neg p) b)
  | Fin p, Fin q => mk_fin false (Qdiv p q)
  end.

(** [Math.ceil(x)]: a value strictly between -1 and 0 gives the negative
    zero. *)
Definition Math_ceil (x : num) : num :=
  match x with
  | Fin q => mk_fin true (inject_Z (Qceiling q))
  | _ => x
  end.

(** ** Character classes and numerals *)

(** A string is held as the bytes of its UTF-8 encoding.  The white space
    of the numeric conversions ([StrWhiteSpaceChar]) is TAB, LF, VT, FF, CR
    and SPACE, of one byte each, and the characters below, of two and of
    three bytes. *)
Definition is_ws (c : ascii) : bool :=
  let n := nat_of_ascii c in
  ((9 <=? n)%nat && (n <=? 13)%nat) || (n =? 32)%nat.

Definition byte_val (c : ascii) : Z := Z.of_nat (nat_of_ascii c).

(** U+00A0, the no-break space. *)
Definition is_ws2 (a b : ascii) : bool :=
  (byte_val a =? 194) && (byte_val b =? 160).

(** U+1680; U+2000 to U+200A, the line and paragraph separators U+2028 and
    U+2029, U+202F; U+205F; U+3000; and the byte order mark U+FEFF. *)
Definition is_ws3 (a b c : ascii) : bool :=
  ((byte_val a =? 225) && (byte_val b =? 154) && (byte_val c =? 128))
  || ((byte_val a =? 226) && (byte_val b =? 128)
      && (((128 <=? byte_val c) && (byte_val c <=? 138))
          || (byte_val c =? 168) || (byte_val c =? 169) || (byte_val c =? 175)))
  || ((byte_val a =? 226) && (byte_val b =? 129) && (byte_val c =? 159))
  || ((byte_val a =? 227) && (byte_val b =? 128) && (byte_val c =? 128))
  || ((byte_val a =? 239) && (byte_val b =? 187) && (byte_val c =? 191)).

Definition hex_val (c : ascii) : option Z :=
  let n := Z.of_nat (nat_of_ascii c) in
  if (48 <=? n) && (n <=? 57) then Some (n - 48)
  else if (97 <=? n) && (n <=? 102) then Some (n - 87)
  else if (65 <=? n) && (n <=? 70) then Some (n - 55)
  else None.

Definition radix_val (radix : Z) (c : ascii) : option Z :=
  match hex_val c with
  | Some d => if d <? radix then Some d else None
  | None => None
  end.

(** The longest prefix of digits in the given radix, as its value, the number
    of digits read, and the rest of the input. *)
Fixpoint read_digits (radix : Z) (acc : Z) (n : nat) (s : list ascii)
  : Z * nat * list ascii :=
  match s with
  | c :: s' =>
      match radix_val radix c with
      | Some d => read_digits radix (acc * radix + d) (S n) s'
      | None => (acc, n, s)
      end
  | [] => (acc, n, [])
  end.

(** The input without its leading white space. *)
Fixpoint drop_ws (s : list ascii) : list ascii :=
  match s with
  | a :: s1 =>
      if is_ws a then drop_ws s1
      else
        match s1 with
        | b :: s2 =>
            if is_ws2 a b then drop_ws s2
            else
              match s2 with
              | c :: s3 => if is_ws3 a b c then drop_ws s3 else s
              | [] => s
              end
        | [] => s
        end
  | [] => []
  end.

(** The input up to the point from which only white space follows. *)
Fixpoint drop_ws_end (s : list ascii) : list ascii :=
  match s with
  | a :: s1 =>
      match drop_ws s with
      | [] => []
      | _ :: _ => a :: drop_ws_end s1
      end
  | [] => []
  end.

Definition trim (s : list ascii) : list ascii := drop_ws_end (drop_ws s).

Definition chars (s : string) : list ascii := list_ascii_of_string s.

(** A literal with a radix prefix ([0x], [0o], [0b]): every remaining
    character must be a digit of that radix and there must be one. *)
Definition prefixed_literal (radix : Z) (s : list ascii) : num :=
  match read_digits radix 0 0 s with
  | (v, S _, []) => of_Z v
  | _ => NaN
  end.

(** The optional exponent part [e[+-]ddd], which must end the literal. *)
Definition exponent_part (s : list ascii) : option Z :=
  match s with
  | [] => Some 0
  | c :: s' =>
      if (Ascii.eqb c "e" || Ascii.eqb c "E")%bool then
        let '(neg, s'') :=
          match s' with
          | "+"%char :: t => (false, t)
          | "-"%char :: t => (true, t)
          | _ => (false, s')
          end in
        match read_digits 10 0 0 s'' with
        | (v, S _, []) => Some (if neg then - v else v)
        | _ => None
        end
      else None
  end.

Definition pow10 (e : Z) : Q :=
  if e <? 0 then 1 # Z.to_pos (10 ^ (- e)) else inject_Z (10 ^ e).

(** [StrUnsignedDecimalLiteral]: [Infinity], or digits with an optional
    fraction and exponent, at least one digit in the mantissa. *)
Definition unsigned_decimal (neg : bool) (s : list ascii) : num :=
  if String.eqb (string_of_list_ascii s) "Infinity" then Inf neg
  else
    let '(ip, ni, r1) := read_digits 10 0 0 s in
    let '(fp, nf, r2) :=
      match r1 with
      | "."%char :: t => read_digits 10 0 0 t
      | _ => (0, 0%nat, r1)
      end in
    match (ni + nf)%nat with
    | O => NaN
    | S _ =>
        match exponent_part r2 with
        | Some e =>
            let m := ip * 10 ^ Z.of_nat nf + fp in
            let q := Qmult (inject_Z m) (pow10 (e - Z.of_nat nf)) in
            mk_fin neg (if neg then Qopp q else q)
        | None => NaN
        end
    end.

(** [StringToNumber]: the empty or blank string is 0. *)
Definition StringToNumber (str : string) : num :=
  match trim (chars str) with
  | [] => Zero false
  | "0"%char :: c :: t =>
      if (Ascii.eqb c "x" || Ascii.eqb c "X")%bool then prefixed_literal 16 t
      else if (Ascii.eqb c "o" || Ascii.eqb c "O")%bool then prefixed_literal 8 t
      else if (Ascii.eqb c "b" || Ascii.eqb c "B")%bool then prefixed_literal 2 t
      else unsigned_decimal false ("0"%char :: c :: t)
  | "+"%char :: t => unsigned_decimal false t
  | "-"%char :: t => unsigned_decimal true t
  | s => unsigned_decimal false s
  end.

(** [parseInt(str, 10)] on a string: leading white space, a sign, then the
    longest run of decimal digits; whatever follows is ignored. *)
Definition parseInt10_string (str : string) : num :=
  let s := drop_ws (chars str) in
  let '(neg, s') :=
    match s with
    | "+"%char :: t => (false, t)
    | "-"%char :: t => (true, t)
    | _ => (false, s)
    end in
  match read_digits 10 0 0 s' with
  | (_, O, _) => NaN
  | (v, S _, _) => mk_fin neg (inject_Z (if neg then - v else v))
  end.

(** ** The values that flow through parameter handling

    A request parameter is a string or is absent ([undefined]); the handlers
    introduce Number values only from integer literals ([1], [20],
    [200]). *)

Inductive prim : Type :=
| PUndefined
| PString (s : string)
| PInt (z : Z).

Definition ToNumber (v : prim) : num :=
  match v with
  | PUndefined => NaN
  | PString s => StringToNumber s
  | PInt z => of_Z z
  end.

Definition ToString (v : prim) : string :=
  match v with
  | PUndefined => "undefined"
  | PString s => s
  | PInt z => NilEmpty.string_of_int (Z.to_int z)
  end.

Definition ToBoolean (v : prim) : bool :=
  match v with
  | PUndefined => false
  | PString s => negb (String.eqb s "")
  | PInt z => negb (z =? 0)
  end.

(** [a || b] *)
Definition or_else (a b : prim) : prim := if ToBoolean a then a else b.

(** A destructuring default [x = d]: used only when the property is
    [undefined]. *)
Definition default_to (d : prim) (a : prim) : prim :=
  match a with PUndefined => d | _ => a end.

Definition isNaN (v : prim) : bool :=
  match ToNumber v with NaN => true | _ => false end.

Definition parseInt10 (v : prim) : num := parseInt10_string (ToString v).

End JS.

Import JS.

(** ** Payload values

    What [res.json] receives and what the mapper hands back: rows are
    objects, eager-loaded associations are properties of a row. *)

Inductive value : Type :=
| VUndefined
| VNull
| VBool (b : bool)
| VNum (n : num)
| VStr (s : string)
| VArr (items : list value)
| VObj (fields : list (string * value)).

Inductive error : Type :=
| DbError (msg : string)
| TypeError (msg : string).

Inductive result (A : Type) : Type :=
| Ok (a : A)
| Throw (e : error).
Arguments Ok {A} a.
Arguments Throw {A} e.

Fixpoint assoc (k : string) (fields : list (string * value)) : option value :=
  match fields with
  | (k', v) :: rest => if String.eqb k k' then Some v else assoc k rest
  | [] => None
  end.

(** [o.k]: reading a property of [undefined] or [null] throws, a missing
    property reads as [undefined]. *)
Definition prop (k : string) (o : value) : result value :=
  match o with
  | VUndefined | VNull =>
      Throw (TypeError ("Cannot read property '" ++ k ++ "'"))
  | VObj fields => Ok (default VUndefined (assoc k fields))
  | _ => Ok VUndefined
  end.

(** [if (v)] *)
Definition truthy (v : value) : bool :=
  match v with
  | VUndefined | VNull => false
  | VBool b => b
  | VNum NaN | VNum (Zero _) => false
  | VNum _ => true
  | VStr s => negb (String.eqb s "")
  | VArr _ | VObj _ => true
  end.

(** [xs.map(f)] for a callback that may throw: the first throw ends it. *)
Fixpoint map_result {A B : Type} (f : A -> result B) (xs : list A)
  : result (list B) :=
  match xs with
  | [] => Ok []
  | x :: rest =>
      match f x with
      | Throw e => Throw e
      | Ok y =>
          match map_result f rest with
          | Throw e => Throw e
          | Ok ys => Ok (y :: ys)
          end
      end
  end.

(** ** The mapper's query interface *)

Module Sequelize.

Inductive Model : Type :=
| Product | ProductCategory | Department | Category | Tax
| Attribute | AttributeValue | ProductAttribute | Review.

(** An entry of an [attributes] array: a column name or a
    [sequelize.literal(...)]. *)
Inductive attr : Type :=
| Col (name : string)
| Literal (sql : string).

(** The right-hand side of a [where] entry: a plain value, [Op.eq] or
    [Op.substring]. *)
Inductive cond : Type :=
| Is (v : prim)
| OpEq (s : string)
| OpSubstring (s : string).

Inductive inclusion : Type :=
| Include (model : Model) (as_ : option string)
    (where_ : list (string * cond)) (attributes : option (list attr))
    (include : list inclusion).

Record options : Type := {
  attributes : option (list attr);
  limit : option num;
  offset : option num;
  where_ : list (string * cond);
  include : list inclusion;
}.

Inductive call : Type :=
| FindAll (m : Model) (o : option options)
| FindByPk (m : Model) (pk : prim) (o : option options)
| FindAndCountAll (m : Model) (o : options).

Record ORM : Type := {
  findAll : Model -> option options -> result (list value);
  findByPk : Model -> prim -> option options -> result value;
  findAndCountAll : Model -> options -> result (list value * N);
}.

End Sequelize.

Import Sequelize.

(** ** Requests, effects and the module-level state *)

Record request : Type := {
  query : gmap string string;
  params : gmap string string;
}.

(** [obj.k] on [req.query] or [req.params]. *)
Definition field (obj : gmap string string) (k : string) : prim :=
  match obj !! k with
  | Some s => PString s
  | None => PUndefined
  end.

(** What a handler does that the outside can see. *)
Inductive event : Type :=
| Query (c : call)
| Json (status : Z) (body : value)
| Next (e : error).

(** [productsQueryMap] is a module-level constant object; its [attributes]
    array is the one piece of state that outlives a request. *)
Record world : Type := {
  productsQueryMap_attributes : list attr;
  trace : list event;
}.

Definition initial_attributes : list attr :=
  [Col "product_id"; Col "name"; Col "price"; Col "thumbnail";
   Col "discounted_price"; Col "description"].

(** An [attributes] array as a handler holds it: the module's own array, or
    one the handler created. *)
Inductive array_ref : Type :=
| ModuleArray
| LocalArray (items : list attr).

Definition M (A : Type) : Type := world -> A * world.

Definition ret {A : Type} (a : A) : M A := fun w => (a, w).

Definition bind {A B : Type} (m : M A) (k : A -> M B) : M B :=
  fun w => let '(a, w') := m w in k a w'.

Notation "x <- m ;; k" := (bind m (fun x => k))
  (at level 100, m at next level, right associativity).
Notation "m ;; k" := (bind m (fun _ => k))
  (at level 100, right associativity).

Definition emit (e : event) : M unit :=
  fun w => (tt, {| productsQueryMap_attributes := productsQueryMap_attributes w;
                   trace := trace w ++ [e] |}).

(** [res.status(s).json(body)] and [next(error)]. *)
Definition res_json (status : Z) (body : value) : M unit := emit (Json status body).
Definition next (e : error) : M unit := emit (Next e).

(** The contents of an array at this moment. *)
Definition deref (r : array_ref) : M (list attr) :=
  fun w =>
    match r with
    | ModuleArray => (productsQueryMap_attributes w, w)
    | LocalArray items => (items, w)
    end.

(** [r.push(x)]: in place.  Only the module's array is ever pushed to. *)
Definition array_push (r : array_ref) (x : attr) : M unit :=
  fun w =>
    match r with
    | ModuleArray =>
        (tt, {| productsQueryMap_attributes := productsQueryMap_attributes w ++ [x];
                trace := trace w |})
    | LocalArray _ => (tt, w)
    end.

(** [r.concat(xs)] and [[...r, x]]: a new array. *)
Definition array_concat (r : array_ref) (xs : list attr) : M array_ref :=
  items <- deref r ;; ret (LocalArray (items ++ xs)).

(** [Object.assign({}, productsQueryMap).attributes]: the copy is shallow, so
    its [attributes] is the module's array itself. *)
Definition Object_assign_attributes : array_ref := ModuleArray.

(** [await Model.method(...)]: the call is recorded, its outcome returned. *)
Definition await_findAll (orm : ORM) (m : Model) (o : option options)
  : M (result (list value)) :=
  emit (Query (FindAll m o)) ;; ret (findAll orm m o).

Definition await_findByPk (orm : ORM) (m : Model) (pk : prim) (o : option options)
  : M (result value) :=
  emit (Query (FindByPk m pk o)) ;; ret (findByPk orm m pk o).

Definition await_findAndCountAll (orm : ORM) (m : Model) (o : options)
  : M (result (list value * N)) :=
  emit (Query (FindAndCountAll m o)) ;; ret (findAndCountAll orm m o).

Definition handler : Type := ORM -> request -> M unit.

(** One request against the module state [attrs]: the state afterwards and
    what happened. *)
Definition run (h : handler) (orm : ORM) (attrs : list attr) (req : request)
  : list attr * list event :=
  let '(_, w) := h orm req {| productsQueryMap_attributes := attrs; trace := [] |} in
  (productsQueryMap_attributes w, trace w).

(** ** Shared pieces of the handlers *)

Definition not_found (message : string) : value :=
  VObj [("error", VObj [("status", VNum (of_Z 404)); ("message", VStr message)])].

Definition bad_request (err : string) : value :=
  VObj [("err", VStr err); ("status", VBool false)].

(** [a === 'on'] *)
Definition strict_eq_string (a : prim) (s : string) : bool :=
  match a with
  | PString a' => String.eqb a' s
  | _ => false
  end.

Definition substring_literal (column : string) (len : prim) : attr :=
  Literal ("SUBSTRING(" ++ column ++ ", 1, " ++ ToString len ++ ") as description").

(** ** product.controller.js *)

Module ProductController.

Definition getAllProducts : handler := fun orm req =>
  let query := query req in
  let descriptionLength := field query "description_length" in
  let page := field query "page" in
  let limit := field query "limit" in
  let limit := or_else limit (PInt 20) in
  let page := or_else page (PInt 1) in
  if isNaN page || isNaN limit || isNaN descriptionLength then
    res_json 400 (bad_request "Query parameters should be valid integer values")
  else
    let sqlQueryMap_attributes := Object_assign_attributes in
    let sqlQueryMap_limit := parseInt10 limit in
    let sqlQueryMap_offset :=
      num_mul (num_sub (ToNumber page) (of_Z 1)) (ToNumber limit) in
    array_push sqlQueryMap_attributes
      (substring_literal "description" descriptionLength) ;;
    attributes <- deref sqlQueryMap_attributes ;;
    let sqlQueryMap :=
      {| attributes := Some attributes;
         limit := Some sqlQueryMap_limit;
         offset := Some sqlQueryMap_offset;
         where_ := [];
         include := [] |} in
    products <- await_findAndCountAll orm Product sqlQueryMap ;;
    match products with
    | Ok (rows, count) =>
        let paginationMeta :=
          VObj [("currentPage", VNum (parseInt10 page));
                ("currentPageSize", VNum (parseInt10 limit));
                ("totalPages",
                 VNum (Math_ceil (num_div (of_Z (Z.of_N count)) (ToNumber limit))));
                ("totalRecords", VNum (of_Z (Z.of_N count)))] in
        res_json 200
          (VObj [("paginationMeta", paginationMeta);
                 ("rows", VArr rows);
                 ("status", VBool true)])
    | Throw error => next error
    end.

Definition searchProduct : handler := fun orm req =>
  let query := query req in
  let queryString := field query "query_string" in
  let allWords := field query "all_words" in
  let descriptionLength := default_to (PInt 200) (field query "description_length") in
  let page := field query "page" in
  let limit := field query "limit" in
  let limit := or_else limit (PInt 20) in
  let page := or_else page (PInt 1) in
  if isNaN page || isNaN limit || isNaN descriptionLength then
    res_json 400 (bad_request "Query parameters should be valid integer values")
  else
    let attributes := Object_assign_attributes in
    sqlQueryMap_attributes <-
      array_concat attributes
        [substring_literal "description" (or_else descriptionLength (PInt 200))] ;;
    let searchParam :=
      if strict_eq_string allWords "on"
      then OpEq (ToString queryString)
      else OpSubstring (ToString queryString) in
    attributes <- deref sqlQueryMap_attributes ;;
    let sqlQueryMap :=
      {| attributes := Some attributes;
         limit := Some (parseInt10 limit);
         offset := Some (num_mul (num_sub (ToNumber page) (of_Z 1)) (ToNumber limit));
         where_ := [("name", searchParam)];
         include := [] |} in
    product <- await_findAll orm Product (Some sqlQueryMap) ;;
    match product with
    | Ok product => res_json 200 (VArr product)
    | Throw error => next error
    end.

Definition getProductsByCategory : handler := fun orm req =>
  let category_id := field (params req) "category_id" in
  let descriptionLength :=
    default_to (PInt 200) (field (query req) "description_length") in
  let page := default_to (PInt 1) (field (query req) "page") in
  let limit := default_to (PInt 20) (field (query req) "limit") in
  if isNaN page || isNaN limit || isNaN descriptionLength then
    res_json 400 (bad_request "Query parameters should be valid integer values")
  else
    let offset :=
      num_mul (num_sub (ToNumber (or_else page (PInt 1))) (of_Z 1))
              (ToNumber (or_else limit (PInt 20))) in
    product_attributes <-
      array_concat ModuleArray
        [substring_literal "description" (or_else descriptionLength (PInt 200))] ;;
    product_attributes <- deref product_attributes ;;
    let queryMap :=
      {| attributes := None;
         limit := Some (if ToBoolean limit then parseInt10 limit else of_Z 20);
         offset := Some offset;
         where_ := [("category_id", Is category_id)];
         include := [Include Product (Some "product") [] (Some product_attributes) []] |} in
    products <- await_findAll orm ProductCategory (Some queryMap) ;;
    match products with
    | Ok products =>
        match map_result (prop "product") products with
        | Ok rows => res_json 200 (VObj [("rows", VArr rows)])
        | Throw error => next error
        end
    | Throw error => next error
    end.

Definition getProductsByDepartment : handler := fun orm req =>
  let department_id := field (params req) "department_id" in
  let descriptionLength :=
    default_to (PInt 200) (field (query req) "description_length") in
  let page := default_to (PInt 1) (field (query req) "page") in
  let limit := default_to (PInt 20) (field (query req) "limit") in
  if isNaN page || isNaN limit || isNaN descriptionLength then
    res_json 400 (bad_request "Query parameters should be valid integer values")
  else
    let offset :=
      num_mul (num_sub (ToNumber (or_else page (PInt 1))) (of_Z 1))
              (ToNumber (or_else limit (PInt 20))) in
    product_attributes <-
      array_concat ModuleArray
        [substring_literal "product.description" (or_else descriptionLength (PInt 200))] ;;
    product_attributes <- deref product_attributes ;;
    let queryMap :=
      {| attributes := Some [];
         limit := Some (if ToBoolean limit then parseInt10 limit else of_Z 20);
         offset := Some offset;
         where_ := [];
         include :=
           [Include Category None [("department_id", Is department_id)] (Some []) [];
            Include Product (Some "product") [] (Some product_attributes) []] |} in
    products <- await_findAll orm ProductCategory (Some queryMap) ;;
    match products with
    | Ok products =>
        match map_result (prop "product") products with
        | Ok rows => res_json 200 (VObj [("rows", VArr rows)])
        | Throw error => next error
        end
    | Throw error => next error
    end.

Definition getProduct : handler := fun orm req =>
  let descriptionLength :=
    default_to (PInt 200) (field (query req) "description_length") in
  let productId := field (params req) "product_id" in
  if isNaN descriptionLength then
    res_json 400 (bad_request "description_length should be valid integer values")
  else
    let attributes := Object_assign_attributes in
    sqlQueryMap_attributes <-
      array_concat attributes
        [Col "image"; Col "display"; Col "image_2";
         substring_literal "description" descriptionLength] ;;
    attributes <- deref sqlQueryMap_attributes ;;
    let sqlQueryMap :=
      {| attributes := Some attributes;
         limit := None; offset := None; where_ := []; include := [] |} in
    product <- await_findByPk orm Product productId (Some sqlQueryMap) ;;
    match product with
    | Ok product =>
        if truthy product then res_json 200 product
        else
          res_json 404
            (not_found ("Product with id " ++ ToString productId ++ " does not exist"))
    | Throw error => next error
    end.

Definition getAllDepartments : handler := fun orm req =>
  departments <- await_findAll orm Department None ;;
  match departments with
  | Ok departments => res_json 200 (VArr departments)
  | Throw error => next error
  end.

Definition getDepartment : handler := fun orm req =>
  let departmentId := field (params req) "department_id" in
  department <- await_findByPk orm Department departmentId None ;;
  match department with
  | Ok department =>
      if truthy department then res_json 200 department
      else
        res_json 404
          (not_found ("Department with id " ++ ToString departmentId ++ " does not exist"))
  | Throw error => next error
  end.

Definition getAllCategories : handler := fun orm req =>
  categories <- await_findAll orm Category None ;;
  match categories with
  | Ok categories => res_json 200 (VObj [("rows", VArr categories)])
  | Throw error => next error
  end.

Definition getSingleCategory : handler := fun orm req =>
  let categoryId := field (params req) "category_id" in
  category <- await_findByPk orm Category categoryId None ;;
  match category with
  | Ok category =>
      if truthy category then res_json 200 category
      else
        res_json 404
          (not_found ("Category with id " ++ ToString categoryId ++ " does not exist"))
  | Throw error => next error
  end.

Definition getDepartmentCategories : handler := fun orm req =>
  let queryMap :=
    {| attributes := None; limit := None; offset := None;
       where_ := [("department_id", Is (field (params req) "department_id"))];
       include := [] |} in
  categories <- await_findAll orm Category (Some queryMap) ;;
  match categories with
  | Ok categories => res_json 200 (VObj [("rows", VArr categories)])
  | Throw error => next error
  end.

Definition getProductCategories : handler := fun orm req =>
  let queryMap :=
    {| attributes := Some [];
       limit := None; offset := None;
       where_ := [("product_id", Is (field (params req) "product_id"))];
       include :=
         [Include Category None []
            (Some [Col "name"; Col "category_id"; Col "department_id"]) []] |} in
  categories <- await_findAll orm ProductCategory (Some queryMap) ;;
  match categories with
  | Ok (first :: _) =>
      match prop "Category" first with
      | Ok category => res_json 200 category
      | Throw error => next error
      end
  | Ok [] => res_json 404 (not_found "Category not found")
  | Throw error => next error
  end.

End ProductController.

(** ** tax.controller.js *)

Module TaxController.

Definition getAllTax : handler := fun orm req =>
  taxes <- await_findAll orm Tax None ;;
  match taxes with
  | Ok taxes => res_json 200 (VArr taxes)
  | Throw error => next error
  end.

Definition getSingleTax : handler := fun orm req =>
  let taxId := field (params req) "tax_id" in
  tax <- await_findByPk orm Tax taxId None ;;
  match tax with
  | Ok tax =>
      if truthy tax then res_json 200 tax
      else
        res_json 404 (not_found ("Tax with id " ++ ToString taxId ++ " does not exist"))
  | Throw error => next error
  end.

End TaxController.

(** ** attributes.controller.js *)

Module AttributeController.

Definition getAllAttributes : handler := fun orm req =>
  attributes <- await_findAll orm Attribute None ;;
  match attributes with
  | Ok attributes => res_json 200 (VArr attributes)
  | Throw error => next error
  end.

Definition getSingleAttribute : handler := fun orm req =>
  let attributeId := field (params req) "attribute_id" in
  attribute <- await_findByPk orm Attribute attributeId None ;;
  match attribute with
  | Ok attribute =>
      if truthy attribute then res_json 200 attribute
      else
        res_json 404
          (not_found ("Attribute with id " ++ ToString attributeId ++ " does not exist"))
  | Throw error => next error
  end.

Definition getAttributeValues : handler := fun orm req =>
  let attributeId := field (params req) "attribute_id" in
  let options :=
    {| attributes := None; limit := None; offset := None; where_ := [];
       include :=
         [Include AttributeValue None []
            (Some [Col "value"; Col "attribute_value_id"]) []] |} in
  attributeValues <- await_findByPk orm Attribute attributeId (Some options) ;;
  match attributeValues with
  | Ok attributeValues =>
      if truthy attributeValues then
        match prop "AttributeValues" attributeValues with
        | Ok AttributeValues => res_json 200 AttributeValues
        | Throw error => next error
        end
      else
        res_json 404
          (not_found ("Attribute with id " ++ ToString attributeId ++ " does not exist"))
  | Throw error => next error
  end.

(** Not implemented in this file: answers without a query. *)
Definition getProductAttributes : handler := fun orm req =>
  res_json 200 (VObj [("message", VStr "this works")]).

End AttributeController.

(** ** Methods that other revisions of the controllers carry

    A later revision of the attribute controller writes
    [getProductAttributes] out, an earlier revision of the tax controller has
    [getSingleTax] as a placeholder still, and a later revision of the
    product controller adds [getProductReviews]. *)

Module Revisions.

(** [{...x, name: v}] on an object's fields. *)
Fixpoint set_field (k : string) (v : value) (fields : list (string * value))
  : list (string * value) :=
  match fields with
  | [] => [(k, v)]
  | (k', v') :: rest =>
      if String.eqb k k' then (k, v) :: rest else (k', v') :: set_field k v rest
  end.

Definition without_field (k : string) (fields : list (string * value))
  : list (string * value) :=
  List.filter (fun kv => negb (String.eqb k (fst kv))) fields.

(** The callback of [reviews.map]:
    [({ dataValues: { Product: product, ...x } }) => ({ ...x, name: product.name })].
    Only an object can carry a [Product] to read [name] from. *)
Definition review_row (r : value) : result value :=
  match prop "dataValues" r with
  | Throw e => Throw e
  | Ok (VObj fields) =>
      match prop "name" (default VUndefined (assoc "Product" fields)) with
      | Throw e => Throw e
      | Ok name => Ok (VObj (set_field "name" name (without_field "Product" fields)))
      end
  | Ok VUndefined | Ok VNull =>
      Throw (TypeError "Cannot destructure property 'Product'")
  | Ok _ => Throw (TypeError "Cannot read property 'name'")
  end.

Definition getProductReviews : handler := fun orm req =>
  let product_id := field (params req) "product_id" in
  let queryMap :=
    {| attributes := Some [Col "created_on"; Col "review"; Col "rating"];
       limit := None; offset := None;
       where_ := [("product_id", Is product_id)];
       include := [Include Product None [] (Some [Col "name"]) []] |} in
  reviews <- await_findAll orm Review (Some queryMap) ;;
  match reviews with
  | Ok reviews =>
      match map_result review_row reviews with
      | Ok productReviews => res_json 200 (VArr productReviews)
      | Throw error => next error
      end
  | Throw error => next error
  end.

(** The callback of [productAttributes.map]. *)
Definition attribute_row (x : value) : result value :=
  match prop "attribute_value_id" x with
  | Throw e => Throw e
  | Ok attribute_value_id =>
      match prop "AttributeValue" x with
      | Throw e => Throw e
      | Ok av =>
          match prop "value" av with
          | Throw e => Throw e
          | Ok value =>
              match prop "attribute_type" av with
              | Throw e => Throw e
              | Ok ty =>
                  match prop "name" ty with
                  | Throw e => Throw e
                  | Ok name =>
                      Ok (VObj [("attribute_value_id", attribute_value_id);
                                ("attribute_value", value);
                                ("attribute_name", name)])
                  end
              end
          end
      end
  end.

Definition getProductAttributes : handler := fun orm req =>
  let productId := field (params req) "product_id" in
  let options :=
    {| attributes := Some [Col "attribute_value_id"];
       limit := None; offset := None;
       where_ := [("product_id", Is productId)];
       include :=
         [Include AttributeValue None [] (Some [Col "value"])
            [Include Attribute (Some "attribute_type") [] (Some [Col "name"]) []]] |} in
  productAttributes <- await_findAll orm ProductAttribute (Some options) ;;
  match productAttributes with
  | Ok productAttributes =>
      match map_result attribute_row productAttributes with
      | Ok attInProducts => res_json 200 (VArr attInProducts)
      | Throw error => next error
      end
  | Throw error => next error
  end.

(** The placeholder [getSingleTax]. *)
Definition getSingleTax : handler := fun orm req =>
  res_json 200 (VObj [("message", VStr "this works")]).

End Revisions.

(** ** Every controller method *)

Inductive method : Type :=
| GetAllProducts | SearchProduct | GetProductsByCategory
| GetProductsByDepartment | GetProduct | GetAllDepartments | GetDepartment
| GetAllCategories | GetSingleCategory | GetDepartmentCategories
| GetProductCategories
| GetAllTax | GetSingleTax
| GetAllAttributes | GetSingleAttribute | GetAttributeValues
| GetProductAttributes
| RevGetProductReviews | RevGetProductAttributes | RevGetSingleTax.

Definition controller (m : method) : handler :=
  match m with
  | GetAllProducts => ProductController.getAllProducts
  | SearchProduct => ProductController.searchProduct
  | GetProductsByCategory => ProductController.getProductsByCategory
  | GetProductsByDepartment => ProductController.getProductsByDepartment
  | GetProduct => ProductController.getProduct
  | GetAllDepartments => ProductController.getAllDepartments
  | GetDepartment => ProductController.getDepartment
  | GetAllCategories => ProductController.getAllCategories
  | GetSingleCategory => ProductController.getSingleCategory
  | GetDepartmentCategories => ProductController.getDepartmentCategories
  | GetProductCategories => ProductController.getProductCategories
  | GetAllTax => TaxController.getAllTax
  | GetSingleTax => TaxController.getSingleTax
  | GetAllAttributes => AttributeController.getAllAttributes
  | GetSingleAttribute => AttributeController.getSingleAttribute
  | GetAttributeValues => AttributeController.getAttributeValues
  | GetProductAttributes => AttributeController.getProductAttributes
  | RevGetProductReviews => Revisions.getProductReviews
  | RevGetProductAttributes => Revisions.getProductAttributes
  | RevGetSingleTax => Revisions.getSingleTax
  end.

(** ** A reference mapper for the name search

    The controllers hand their queries to the models of the database layer,
    which is not among the sources.  What follows is the reading of
    [findAll] that the specification's words give: equality, substring,
    and a page cut out by offset and limit. *)

Module Reference.

(** [hay] begins with [needle]. *)
Fixpoint starts_with (needle hay : string) : bool :=
  match needle, hay with
  | EmptyString, _ => true
  | String a needle', String b hay' => Ascii.eqb a b && starts_with needle' hay'
  | String _ _, EmptyString => false
  end.

(** [needle] occurs in [hay]. *)
Fixpoint contains (needle hay : string) : bool :=
  starts_with needle hay ||
  match hay with
  | EmptyString => false
  | String _ rest => contains needle rest
  end.

(** Modelled from the spec: a column of a row against the right-hand side of
    a [where] entry, [Op.eq] as equality of strings and [Op.substring] as
    containment. *)
Definition cond_holds (c : cond) (v : value) : bool :=
  match c, v with
  | OpEq s, VStr t => String.eqb t s
  | OpSubstring s, VStr t => contains s t
  | Is (PString s), VStr t => String.eqb t s
  | Is (PInt z), VNum n =>
      match n, of_Z z with
      | Fin a, Fin b => Qeq_bool a b
      | Zero _, Zero _ => true
      | _, _ => false
      end
  | _, _ => false
  end.

Definition row_matches (w : list (string * cond)) (row : value) : bool :=
  forallb
    (fun kc =>
       match prop (fst kc) row with
       | Ok v => cond_holds (snd kc) v
       | Throw _ => false
       end) w.

(** A row count given as a Number: a non-negative integer, or nothing. *)
Definition as_count (n : num) : option nat :=
  match n with
  | Zero _ => Some O
  | Fin q =>
      if (Qden q =? 1)%positive && (0 <? Qnum q)
      then Some (Z.to_nat (Qnum q)) else None
  | _ => None
  end.

(** Modelled from the spec: the page that [offset] and [limit] cut out. *)
Definition paginate (o : options) (rows : list value) : result (list value) :=
  match offset o, limit o with
  | None, None => Ok rows
  | Some off, None =>
      match as_count off with
      | Some k => Ok (skipn k rows)
      | None => Throw (DbError "invalid OFFSET")
      end
  | None, Some lim =>
      match as_count lim with
      | Some n => Ok (firstn n rows)
      | None => Throw (DbError "invalid LIMIT")
      end
  | Some off, Some lim =>
      match as_count off, as_count lim with
      | Some k, Some n => Ok (firstn n (skipn k rows))
      | _, _ => Throw (DbError "invalid LIMIT or OFFSET")
      end
  end.

(** Modelled from the spec: the rows a query keeps, then its page. *)
Definition select (table : list value) (o : option options) : result (list value) :=
  match o with
  | None => Ok table
  | Some o => paginate o (List.filter (row_matches (where_ o)) table)
  end.

(** Modelled from the spec: the mapper's [findAll] and [findAndCountAll] on
    the products table, which live in the database layer and not in the
    controllers.  A [where] entry with [Op.eq] keeps the rows whose column
    equals the string, one with [Op.substring] the rows whose column
    contains it; [offset] and [limit] then cut one page out of the rows
    kept, in table order, and a page that is not given by two natural
    numbers is refused.  The other tables are empty. *)
Definition orm (products : list value) : ORM :=
  {| findAll := fun m o =>
       match m with
       | Product => select products o
       | _ => Ok []
       end;
     findByPk := fun _ _ _ => Ok VNull;
     findAndCountAll := fun m o =>
       match m with
       | Product =>
           match select products (Some o) with
           | Ok rows =>
               Ok (rows,
                   N.of_nat (length (List.filter (row_matches (where_ o)) products)))
           | Throw e => Throw e
           end
       | _ => Ok ([], 0%N)
       end |}.

End Reference.

(** ** Vocabulary of the statements *)

(** A page or limit parameter as the handlers use it: the string sent, or the
    default when the parameter is absent or empty. *)
Definition param_or (d : Z) (sent : option string) : prim :=
  match sent with
  | Some s => if String.eqb s "" then PInt d else PString s
  | None => PInt d
  end.

(** A parameter that does not trip the numeric check. *)
Definition numeric_or_absent (sent : option string) : Prop :=
  forall s, sent = Some s -> StringToNumber s <> NaN.

(** A Number that is an integer. *)
Definition is_integer (n : num) : bool :=
  match n with
  | Zero _ => true
  | Fin q => (Qden q =? 1)%positive
  | _ => false
  end.

(** The outcome the mapper gives a call. *)
Definition rejects (orm : ORM) (c : call) (e : error) : Prop :=
  match c with
  | FindAll m o => findAll orm m o = Throw e
  | FindByPk m pk o => findByPk orm m pk o = Throw e
  | FindAndCountAll m o => findAndCountAll orm m o = Throw e
  end.

(** The options a call carries. *)
Definition call_options (c : call) : option options :=
  match c with
  | FindAll _ o | FindByPk _ _ o => o
  | FindAndCountAll _ o => Some o
  end.

(** The property names of an object, in order. *)
Definition keys (v : value) : option (list string) :=
  match v with
  | VObj fields => Some (map fst fields)
  | _ => None
  end.

(** The five methods that validate page, limit or description_length. *)
Definition validating (m : method) : bool :=
  match m with
  | GetAllProducts | SearchProduct | GetProductsByCategory
  | GetProductsByDepartment | GetProduct => true
  | _ => false
  end.

(** The four paginated list methods. *)
Definition paginated (m : method) : bool :=
  match m with
  | GetAllProducts | SearchProduct | GetProductsByCategory
  | GetProductsByDepartment => true
  | _ => false
  end.

Definition validation_message (m : method) : string :=
  match m with
  | GetProduct => "description_length should be valid integer values"
  | _ => "Query parameters should be valid integer values"
  end.

(** A mapper that finds nothing and never fails. *)
Definition empty_orm : ORM :=
  {| findAll := fun _ _ => Ok [];
     findByPk := fun _ _ _ => Ok VNull;
     findAndCountAll := fun _ _ => Ok ([], 0%N) |}.

(** A mapper whose every call is rejected with the same error. *)
Definition failing_orm (e : error) : ORM :=
  {| findAll := fun _ _ => Throw e;
     findByPk := fun _ _ _ => Throw e;
     findAndCountAll := fun _ _ => Throw e |}.

Definition mk_request (q p : list (string * string)) : request :=
  {| query := list_to_map q; params := list_to_map p |}.

(** Which parameters a method runs through [isNaN]. *)
Definition checks (m : method) (k : string) : bool :=
  match m with
  | GetAllProducts | SearchProduct | GetProductsByCategory
  | GetProductsByDepartment =>
      String.eqb k "page" || String.eqb k "limit"
      || String.eqb k "description_length"
  | GetProduct => String.eqb k "description_length"
  | _ => false
  end.

(** The single-entity lookups: the model, the route parameter holding the
    id, and the name the message uses. *)
Definition single_entity (m : method) : option (Model * string * string) :=
  match m with
  | GetProduct => Some (Product, "product_id", "Product")
  | GetDepartment => Some (Department, "department_id", "Department")
  | GetSingleCategory => Some (Category, "category_id", "Category")
  | GetSingleTax => Some (Tax, "tax_id", "Tax")
  | GetSingleAttribute => Some (Attribute, "attribute_id", "Attribute")
  | _ => None
  end.

(** The options [getProduct] hands to [findByPk]. *)
Definition product_options (attrs : list attr) (len : prim) : options :=
  {| attributes :=
       Some (attrs ++ [Col "image"; Col "display"; Col "image_2";
                       substring_literal "description" len])%list;
     limit := None; offset := None; where_ := []; include := [] |}.

(** The options of a single-entity lookup. *)
Definition lookup_options (m : method) (attrs : list attr) (req : request)
  : option options :=
  match m with
  | GetProduct =>
      Some (product_options attrs
              (default_to (PInt 200) (field (query req) "description_length")))
  | _ => None
  end.

(** The body of a 404. *)
Definition not_found_shape (body : value) : Prop :=
  exists message,
    body = VObj [("error", VObj [("status", VNum (of_Z 404));
                                 ("message", VStr message)])].

(** The body a list method sends with status 200. *)
Definition list_body (m : method) (body : value) : Prop :=
  match m with
  | GetAllProducts => keys body = Some ["paginationMeta"; "rows"; "status"]
  | SearchProduct => exists products, body = VArr products
  | GetProductsByCategory | GetProductsByDepartment =>
      exists rows, body = VObj [("rows", VArr rows)]
  | _ => True
  end.

(** The attributes a call asks for on the product model: its own when it
    queries products, those of the product inclusion otherwise. *)
Definition product_attributes (c : call) : list attr :=
  match c with
  | FindAll Product (Some o) | FindByPk Product _ (Some o)
  | FindAndCountAll Product o => default [] (attributes o)
  | FindAll _ (Some o) =>
      flat_map
        (fun i =>
           match i with
           | Include Product _ _ (Some a) _ => a
           | _ => []
           end) (include o)
  | _ => []
  end.

(** The column whose prefix a method selects. *)
Definition length_column (m : method) : string :=
  match m with
  | GetProductsByDepartment => "product.description"
  | _ => "description"
  end.

(** The query of [getProductCategories]. *)
Definition category_query (req : request) : options :=
  {| attributes := Some [];
     limit := None; offset := None;
     where_ := [("product_id", Is (field (params req) "product_id"))];
     include :=
       [Include Category None []
          (Some [Col "name"; Col "category_id"; Col "department_id"]) []] |}.

Definition is_object (v : value) : Prop := exists fields, v = VObj fields.

(** [row.k] on a row that is an object. *)
Definition property (k : string) (row : value) : value :=
  match row with
  | VObj fields => default VUndefined (assoc k fields)
  | _ => VUndefined
  end.

(** The query of [getAllProducts] against the module state [attrs]. *)
Definition products_query (attrs : list attr) (req : request) : options :=
  {| attributes :=
       Some (attrs ++ [substring_literal "description"
                         (field (query req) "description_length")])%list;
     limit := Some (parseInt10 (param_or 20 (query req !! "limit")));
     offset :=
       Some (num_mul
               (num_sub (ToNumber (param_or 1 (query req !! "page"))) (of_Z 1))
               (ToNumber (param_or 20 (query req !! "limit"))));
     where_ := [];
     include := [] |}.

(** ** Sample requests *)

Definition product_7_length_1_5 : request :=
  mk_request [("description_length", "1.5")] [("product_id", "7")].

Definition product_999_length_abc : request :=
  mk_request [("description_length", "abc")] [("product_id", "999")].

Definition search_shirt : request :=
  mk_request [("query_string", "shirt")] [].

Definition products_length_10 : request :=
  mk_request [("description_length", "10")] [].

Definition products_page_3_limit_7 : request :=
  mk_request [("description_length", "10"); ("page", "3"); ("limit", "7")] [].

Definition category_2_page_3_limit_7 : request :=
  mk_request [("page", "3"); ("limit", "7")] [("category_id", "2")].

Definition tax_5 : request := mk_request [] [("tax_id", "5")].

Definition product_7 : request := mk_request [] [("product_id", "7")].

Definition products_limit_1e1 : request :=
  mk_request [("description_length", "10"); ("limit", "1e1")] [].

Definition category_2_page_2_limit_1e1 : request :=
  mk_request [("page", "2"); ("limit", "1e1")] [("category_id", "2")].

(** A mapper that links product 7 to two categories. *)
Definition two_categories_orm : ORM :=
  {| findAll := fun m _ =>
       match m with
       | ProductCategory =>
           Ok [VObj [("Category",
                      VObj [("name", VStr "French");
                            ("category_id", VNum (of_Z 1));
                            ("department_id", VNum (of_Z 1))])];
               VObj [("Category",
                      VObj [("name", VStr "Italian");
                            ("category_id", VNum (of_Z 2));
                            ("department_id", VNum (of_Z 1))])]]
       | _ => Ok []
       end;
     findByPk := fun _ _ _ => Ok VNull;
     findAndCountAll := fun _ _ => Ok ([], 0%N) |}.

(** The body [getAllProducts] sends with status 200. *)
Definition pagination_body
    (currentPage currentPageSize totalPages totalRecords : num)
    (rows : list value) : value :=
  VObj [("paginationMeta",
         VObj [("currentPage", VNum currentPage);
               ("currentPageSize", VNum currentPageSize);
               ("totalPages", VNum totalPages);
               ("totalRecords", VNum totalRecords)]);
        ("rows", VArr rows);
        ("status", VBool true)].

(** What [getAllProducts] sends for the first page of an empty table. *)
Definition empty_first_page : value :=
  pagination_body (of_Z 1) (of_Z 20) (of_Z 0) (of_Z 0) [].

(** The module state after one and after two [getAllProducts] requests
    with a description_length of 10. *)
Definition attributes_after_one : list attr :=
  (initial_attributes
   ++ [Literal "SUBSTRING(description, 1, 10) as description"])%list.

Definition attributes_after_two : list attr :=
  (initial_attributes
   ++ [Literal "SUBSTRING(description, 1, 10) as description";
       Literal "SUBSTRING(description, 1, 10) as description"])%list.

(** A mapper over an empty table that reports a count of [n]. *)
Definition counting_orm (n : N) : ORM :=
  {| findAll := fun _ _ => Ok [];
     findByPk := fun _ _ _ => Ok VNull;
     findAndCountAll := fun _ _ => Ok ([], n) |}.

(** ** The name search, in the words of the specification *)

(** The string searched for: [`${queryString}`]. *)
Definition search_text (req : request) : string :=
  ToString (field (query req) "query_string").

(** A row is selected when its name equals the text (all_words is [on]) or
    contains it (otherwise). *)
Definition name_selected (req : request) (row : value) : Prop :=
  exists name,
    property "name" row = VStr name
    /\ (query req !! "all_words" = Some "on" /\ name = search_text req
        \/ query req !! "all_words" <> Some "on"
           /\ exists before after, name = before ++ search_text req ++ after).

(** The [where] entry [searchProduct] builds for the name. *)
Definition search_param (req : request) : cond :=
  if strict_eq_string (field (query req) "all_words") "on"
  then OpEq (search_text req)
  else OpSubstring (search_text req).

(** Twenty-one products, all named shirt. *)
Definition shirt (id : Z) : value :=
  VObj [("product_id", VNum (of_Z id)); ("name", VStr "shirt")].

Definition shirts : list value :=
  map (fun i => shirt (Z.of_nat i)) (seq 1 21).

Definition search_shirt_all_words : request :=
  mk_request [("query_string", "shirt"); ("all_words", "on")] [].

(** ** Decimal numerals *)

(** The digits [0] to [9]. *)
Definition digit_val (c : ascii) : option Z :=
  let n := Z.of_nat (nat_of_ascii c) in
  if (48 <=? n) && (n <=? 57) then Some (n - 48) else None.

(** The value of a run of decimal digits. *)
Fixpoint digits_value (acc : Z) (s : list ascii) : option Z :=
  match s with
  | [] => Some acc
  | c :: s' =>
      match digit_val c with
      | Some d => digits_value (acc * 10 + d) s'
      | None => None
      end
  end.

(** A string that is a decimal numeral, one or more digits and nothing else,
    and the natural number it writes. *)
Definition decimal (s : string) : option Z :=
  match chars s with
  | [] => None
  | l => digits_value 0 l
  end.

(** A page or limit parameter that is absent or a decimal numeral, as the
    integer it stands for. *)
Definition numeral_param (d : Z) (sent : option string) : option Z :=
  match sent with
  | None => Some d
  | Some s => decimal s
  end.

(** A page or limit parameter as a natural number: the default when it is
    absent or empty, the number written when it is a decimal numeral. *)
Definition integer_param (d : Z) (sent : option string) : option Z :=
  match sent with
  | Some s => if String.eqb s "" then Some d else decimal s
  | None => Some d
  end.

(** The Number that is exactly the integer [z]. *)
Definition integer (z : Z) : num :=
  if z =? 0 then Zero false else Fin (inject_Z z).

(** [(p - 1) * l] as a Number, for a page and a limit that are natural
    numbers; on page 0 with limit 0 the product [-1 * 0] is the negative
    zero. *)
Definition page_offset (p l : Z) : num :=
  if (p =? 0) && (l =? 0) then Zero true else integer ((p - 1) * l).

(** The ceiling of [count / limit], for a count and a limit that are natural
    numbers; a division by zero is the positive infinity, and 0 / 0 is not a
    number. *)
Definition total_pages (count limit : Z) : num :=
  if limit =? 0 then (if count =? 0 then NaN else Inf false)
  else integer (Qceiling (inject_Z count / inject_Z limit)).

(** ** Vocabulary of the further properties *)

(** A parameter that trips the numeric check: sent, and not a number. *)
Definition non_numeric (sent : option string) : Prop :=
  exists s, sent = Some s /\ StringToNumber s = NaN.

(** What a request must be for a method to turn it away. *)
Definition invalid (m : method) (req : request) : Prop :=
  match m with
  | GetAllProducts =>
      non_numeric (query req !! "page") \/ non_numeric (query req !! "limit")
      \/ non_numeric (query req !! "description_length")
      \/ query req !! "description_length" = None
  | SearchProduct | GetProductsByCategory | GetProductsByDepartment =>
      non_numeric (query req !! "page") \/ non_numeric (query req !! "limit")
      \/ non_numeric (query req !! "description_length")
  | GetProduct => non_numeric (query req !! "description_length")
  | _ => False
  end.

(** The methods whose code has no query at all. *)
Definition placeholder (m : method) : bool :=
  match m with
  | GetProductAttributes | RevGetSingleTax => true
  | _ => false
  end.

(** The methods that have a 404 branch. *)
Definition may_miss (m : method) : bool :=
  match m with
  | GetProduct | GetDepartment | GetSingleCategory | GetSingleTax
  | GetSingleAttribute | GetAttributeValues | GetProductCategories => true
  | _ => false
  end.

(** The methods that read a property off the rows they were given. *)
Definition reads_rows (m : method) : bool :=
  match m with
  | GetProductsByCategory | GetProductsByDepartment | GetProductCategories
  | RevGetProductReviews | RevGetProductAttributes => true
  | _ => false
  end.

(** The methods that read [productsQueryMap]. *)
Definition reads_module (m : method) : bool :=
  match m with
  | GetAllProducts | SearchProduct | GetProductsByCategory
  | GetProductsByDepartment | GetProduct => true
  | _ => false
  end.

(** Everything a request can come to. *)
Inductive outcome (m : method) : list event -> Prop :=
| turned_away body :
    validating m = true -> outcome m [Json 400 body]
| answered_unasked body :
    placeholder m = true -> outcome m [Json 200 body]
| answered c body :
    outcome m [Query c; Json 200 body]
| not_found_after c body :
    may_miss m = true -> outcome m [Query c; Json 404 body]
| forwarded c e :
    outcome m [Query c; Next e].

(** [undefined] and [null]. *)
Definition nullish (v : value) : bool :=
  match v with
  | VUndefined | VNull => true
  | _ => false
  end.

(** The description length a method puts in its literal. *)
Definition length_sent (m : method) (req : request) : prim :=
  match m, query req !! "description_length" with
  | (GetAllProducts | GetProduct), Some s => PString s
  | _, Some s => if String.eqb s "" then PInt 200 else PString s
  | GetAllProducts, None => PUndefined
  | _, None => PInt 200
  end.

(** What a method adds to the module's attributes for its query. *)
Definition request_attributes (m : method) (req : request) : list attr :=
  match m with
  | GetProduct =>
      [Col "image"; Col "display"; Col "image_2";
       substring_literal "description" (length_sent m req)]
  | _ => [substring_literal (length_column m) (length_sent m req)]
  end.

(** Requests served one after the other by the same process: the module
    state each leaves is the one the next finds. *)
Fixpoint serve (orm : ORM) (attrs : list attr) (reqs : list (method * request))
  : list attr * list (list event) :=
  match reqs with
  | [] => (attrs, [])
  | (m, req) :: rest =>
      let '(attrs', events) := run (controller m) orm attrs req in
      let '(final, later) := serve orm attrs' rest in
      (final, events :: later)
  end.

(** Whether a parameter is absent or a number. *)
Definition numeric (sent : option string) : bool :=
  match sent with
  | Some s => match StringToNumber s with NaN => false | _ => true end
  | None => true
  end.

(** What one request adds to the module's array, for good. *)
Definition residue (r : method * request) : list attr :=
  match r with
  | (GetAllProducts, req) =>
      match query req !! "description_length" with
      | Some s =>
          if numeric (query req !! "page") && numeric (query req !! "limit")
             && numeric (Some s)
          then [substring_literal "description" (PString s)]
          else []
      | None => []
      end
  | _ => []
  end.

(** A string of one-byte white space only, and not empty. *)
Definition blank (s : string) : Prop :=
  s <> "" /\ Forall (fun c => is_ws c = true) (chars s).

(** A link row of [getProductAttributes] from which the three values can
    be read. *)
Definition complete_link (x : value) : bool :=
  negb (nullish x)
  && negb (nullish (property "AttributeValue" x))
  && negb (nullish (property "attribute_type" (property "AttributeValue" x))).

(** What [getProductAttributes] makes of a complete link row. *)
Definition link_summary (x : value) : value :=
  VObj [("attribute_value_id", property "attribute_value_id" x);
        ("attribute_value", property "value" (property "AttributeValue" x));
        ("attribute_name",
         property "name"
           (property "attribute_type" (property "AttributeValue" x)))].

(** The query of [getProductAttributes]. *)
Definition product_attributes_query (req : request) : options :=
  {| attributes := Some [Col "attribute_value_id"];
     limit := None; offset := None;
     where_ := [("product_id", Is (field (params req) "product_id"))];
     include :=
       [Include AttributeValue None [] (Some [Col "value"])
          [Include Attribute (Some "attribute_type") [] (Some [Col "name"]) []]] |}.

(** The query of [getProductReviews]. *)
Definition reviews_query (req : request) : options :=
  {| attributes := Some [Col "created_on"; Col "review"; Col "rating"];
     limit := None; offset := None;
     where_ := [("product_id", Is (field (params req) "product_id"))];
     include := [Include Product None [] (Some [Col "name"]) []] |}.

(** The options [getAttributeValues] hands to [findByPk]. *)
Definition attribute_values_options : options :=
  {| attributes := None; limit := None; offset := None; where_ := [];
     include :=
       [Include AttributeValue None []
          (Some [Col "value"; Col "attribute_value_id"]) []] |}.

(** A mapper whose every list is one [null] row. *)
Definition null_row_orm : ORM :=
  {| findAll := fun _ _ => Ok [VNull];
     findByPk := fun _ _ _ => Ok VNull;
     findAndCountAll := fun _ _ => Ok ([], 0%N) |}.

Definition products_length_empty : request :=
  mk_request [("description_length", "")] [].

Definition search_all_words_upper : request :=
  mk_request [("all_words", "ON")] [].

(** A review row that came with its product: [dataValues] is an object
    whose [Product] is neither [undefined] nor [null]. *)
Definition has_product (r : value) : bool :=
  match property "dataValues" r with
  | VObj fields => negb (nullish (default VUndefined (assoc "Product" fields)))
  | _ => false
  end.

(** A mapper with one review of a product, and one with a review whose
    product was not loaded. *)
Definition review_of (product : value) : value :=
  VObj [("dataValues",
         VObj [("name", VStr "the reviewer"); ("review", VStr "fine");
               ("rating", VNum (of_Z 4)); ("Product", product)])].

Definition reviews_orm (reviews : list value) : ORM :=
  {| findAll := fun _ _ => Ok reviews;
     findByPk := fun _ _ _ => Ok VNull;
     findAndCountAll := fun _ _ => Ok ([], 0%N) |}.

(** An attribute that is found, with two values. *)
Definition colour_attribute : value :=
  VObj [("attribute_id", VNum (of_Z 2)); ("name", VStr "Color");
        ("AttributeValues", VArr [VStr "Red"; VStr "Blue"])].

Definition found_orm (v : value) : ORM :=
  {| findAll := fun _ _ => Ok [];
     findByPk := fun _ _ _ => Ok v;
     findAndCountAll := fun _ _ => Ok ([], 0%N) |}.

Definition attribute_2 : request := mk_request [] [("attribute_id", "2")].

(** The query of the category list and of the department list against the
    module state [attrs]. *)
Definition links_query (m : method) (attrs : list attr) (req : request)
  : options :=
  let limit := parseInt10 (param_or 20 (query req !! "limit")) in
  let offset :=
    num_mul (num_sub (ToNumber (param_or 1 (query req !! "page"))) (of_Z 1))
            (ToNumber (param_or 20 (query req !! "limit"))) in
  let product :=
    Include Product (Some "product") []
      (Some (attrs ++ request_attributes m req)%list) [] in
  match m with
  | GetProductsByDepartment =>
      {| attributes := Some [];
         limit := Some limit;
         offset := Some offset;
         where_ := [];
         include :=
           [Include Category None
              [("department_id", Is (field (params req) "department_id"))]
              (Some []) [];
            product] |}
  | _ =>
      {| attributes := None;
         limit := Some limit;
         offset := Some offset;
         where_ := [("category_id", Is (field (params req) "category_id"))];
         include := [product] |}
  end.

(** A mapper that knows the links of one category, and of no other. *)
Definition category_links_orm (category : string) (links : list value) : ORM :=
  {| findAll := fun m o =>
       match m, o with
       | ProductCategory, Some o =>
           match where_ o with
           | [(k, Is (PString id))] =>
               if String.eqb k "category_id" && String.eqb id category
               then Ok links else Ok []
           | _ => Ok []
           end
       | _, _ => Ok []
       end;
     findByPk := fun _ _ _ => Ok VNull;
     findAndCountAll := fun _ _ => Ok ([], 0%N) |}.

(** A link row of a product to one value of an attribute, as the query of
    [getProductAttributes] loads it. *)
Definition attribute_link (id : Z) (val name : string) : value :=
  VObj [("attribute_value_id", VNum (of_Z id));
        ("AttributeValue",
         VObj [("value", VStr val);
               ("attribute_type", VObj [("name", VStr name)])])].

(** A link row whose attribute value was not loaded. *)
Definition bare_link (id : Z) : value :=
  VObj [("attribute_value_id", VNum (of_Z id))].

(** A mapper that knows the attribute links of one product, and of no
    other. *)
Definition product_links_orm (product : string) (links : list value) : ORM :=
  {| findAll := fun m o =>
       match m, o with
       | ProductAttribute, Some o =>
           match where_ o with
           | [(k, Is (PString id))] =>
               if String.eqb k "product_id" && String.eqb id product
               then Ok links else Ok []
           | _ => Ok []
           end
       | _, _ => Ok []
       end;
     findByPk := fun _ _ _ => Ok VNull;
     findAndCountAll := fun _ _ => Ok ([], 0%N) |}.

(** * Properties *)

(** ** The conversions on sample inputs *)

Example number_of_decimal : StringToNumber "12" = Fin (12 # 1).
Proof. reflexivity. Qed.

Example number_of_fraction : StringToNumber "1.5" = Fin (3 # 2).
Proof. reflexivity. Qed.

Example number_of_padded : StringToNumber " 12 " = Fin (12 # 1).
Proof. reflexivity. Qed.

Example number_of_empty : StringToNumber "" = Zero false.
Proof. reflexivity. Qed.

Example number_of_hex : StringToNumber "0x1A" = Fin (26 # 1).
Proof. reflexivity. Qed.

Example number_of_exponent : StringToNumber "1e1" = Fin (10 # 1).
Proof. reflexivity. Qed.

Example number_of_word : StringToNumber "abc" = NaN.
Proof. reflexivity. Qed.

Example number_of_trailing_garbage : StringToNumber "12abc" = NaN.
Proof. reflexivity. Qed.

Example number_of_infinity : StringToNumber "-Infinity" = Inf true.
Proof. reflexivity. Qed.

Example parseInt_stops_at_garbage : parseInt10 (PString "12abc") = Fin (12 # 1).
Proof. reflexivity. Qed.

Example parseInt_of_exponent : parseInt10 (PString "1e1") = Fin (1 # 1).
Proof. reflexivity. Qed.

Example parseInt_of_empty : parseInt10 (PString "") = NaN.
Proof. reflexivity. Qed.

Example parseInt_of_default : parseInt10 (PInt 20) = Fin (20 # 1).
Proof. reflexivity. Qed.

Example ceil_of_quotient :
  Math_ceil (num_div (of_Z 101) (StringToNumber "20")) = Fin (6 # 1).
Proof. reflexivity. Qed.

(** Rounding: a tenth is not a double, and neither is three times the
    double nearest to it; the doubles end short of 1.8e308 and begin at
    5e-324; past 2^53 not every integer is one. *)
Example number_of_tenth :
  StringToNumber "0.1" = Fin (3602879701896397 # 36028797018963968).
Proof. reflexivity. Qed.

Example three_tenths :
  num_mul (of_Z 3) (StringToNumber "0.1")
  = Fin (1351079888211149 # 4503599627370496)
  /\ StringToNumber "0.3" = Fin (5404319552844595 # 18014398509481984).
Proof. split; vm_compute; reflexivity. Qed.

Example number_largest :
  StringToNumber "1.7976931348623157e308"
  = Fin (inject_Z ((2 ^ 53 - 1) * 2 ^ 971)).
Proof. vm_compute. reflexivity. Qed.

Example number_past_the_largest :
  StringToNumber "1.7976931348623159e308" = Inf false
  /\ StringToNumber "1e400" = Inf false
  /\ StringToNumber "-1e400" = Inf true.
Proof. repeat split; vm_compute; reflexivity. Qed.

Example number_smallest :
  StringToNumber "5e-324" = Fin (1 # Z.to_pos (2 ^ 1074))
  /\ StringToNumber "2e-324" = Zero false
  /\ StringToNumber "-1e-400" = Zero true.
Proof. repeat split; vm_compute; reflexivity. Qed.

Example number_past_safe_integers :
  StringToNumber "9007199254740993" = Fin (9007199254740992 # 1)
  /\ parseInt10 (PString "9007199254740993") = Fin (9007199254740992 # 1)
  /\ StringToNumber "9007199254740995" = Fin (9007199254740996 # 1).
Proof. repeat split; vm_compute; reflexivity. Qed.

(** White space of more than one byte: a no-break space before and a byte
    order mark after the digits are trimmed, a paragraph separator before
    them is skipped by [parseInt], and the second byte of the no-break
    space alone is no white space. *)
Example number_of_no_break_space :
  StringToNumber
    (String (ascii_of_nat 194) (String (ascii_of_nat 160) "12")
     ++ String (ascii_of_nat 239)
          (String (ascii_of_nat 187) (String (ascii_of_nat 191) "")))
  = Fin (12 # 1)
  /\ StringToNumber (String (ascii_of_nat 194) (String (ascii_of_nat 160) ""))
     = Zero false
  /\ parseInt10
       (PString (String (ascii_of_nat 226)
                   (String (ascii_of_nat 128) (String (ascii_of_nat 169) "12"))))
     = Fin (12 # 1)
  /\ StringToNumber (String (ascii_of_nat 160) "12") = NaN.
Proof. repeat split; vm_compute; reflexivity. Qed.

(** ** Symbolic execution of a handler *)

Ltac tidy := cbn [productsQueryMap_attributes trace app fst snd].

Ltac exec :=
  unfold run, controller,
    ProductController.getAllProducts, ProductController.searchProduct,
    ProductController.getProductsByCategory,
    ProductController.getProductsByDepartment, ProductController.getProduct,
    ProductController.getAllDepartments, ProductController.getDepartment,
    ProductController.getAllCategories, ProductController.getSingleCategory,
    ProductController.getDepartmentCategories,
    ProductController.getProductCategories,
    TaxController.getAllTax, TaxController.getSingleTax,
    AttributeController.getAllAttributes,
    AttributeController.getSingleAttribute,
    AttributeController.getAttributeValues,
    AttributeController.getProductAttributes,
    Revisions.getProductReviews, Revisions.getProductAttributes,
    Revisions.getSingleTax,
    await_findAll, await_findByPk, await_findAndCountAll,
    array_concat, array_push, deref, Object_assign_attributes,
    res_json, next, emit, bind, ret;
  tidy.

(** Case analysis on whatever the handler branches on next: the validation
    test first, then the mapper's answer, then the rows. *)
Ltac branch :=
  repeat match goal with
  | |- context [if (?a || ?b)%bool then _ else _] =>
      destruct (a || b)%bool eqn:?; tidy
  | |- context [if isNaN ?a then _ else _] => destruct (isNaN a) eqn:?; tidy
  | |- context [match findAll ?o ?m ?q with _ => _ end] =>
      destruct (findAll o m q) eqn:?; tidy
  | |- context [match findByPk ?o ?m ?k ?q with _ => _ end] =>
      destruct (findByPk o m k q) eqn:?; tidy
  | |- context [match findAndCountAll ?o ?m ?q with _ => _ end] =>
      destruct (findAndCountAll o m q) as [[? ?]|?] eqn:?; tidy
  | |- context [if truthy ?v then _ else _] => destruct (truthy v) eqn:?; tidy
  | |- context [match map_result ?f ?l with _ => _ end] =>
      destruct (map_result f l) eqn:?; tidy
  | |- context [match prop ?k ?v with _ => _ end] =>
      destruct (prop k v) eqn:?; tidy
  | |- context [match ?l with [] => _ | _ :: _ => _ end] =>
      is_var l; destruct l; tidy
  end.

(** A concrete request that is not invalid. *)
Ltac refute_invalid :=
  unfold invalid, non_numeric; intros H;
  repeat (destruct H as [H | H]);
  lazymatch type of H with
  | ex _ =>
      let s := fresh "s" in
      let H1 := fresh "H" in
      let H2 := fresh "H" in
      destruct H as [s [H1 H2]]; vm_compute in H1;
      first [discriminate H1
            | injection H1 as <-; vm_compute in H2; discriminate H2]
  | _ => vm_compute in H; discriminate H
  end.

(** ** Rounding to a double *)

Lemma rhe_lower (n : Z) (d : positive) (j : Z) :
  j * Z.pos d <= n -> j <= round_half_even n d.
Proof.
  intros H. unfold round_half_even.
  pose proof (Z.div_mod n (Z.pos d) ltac:(lia)) as Hdm.
  pose proof (Z.mod_pos_bound n (Z.pos d) ltac:(lia)) as Hb.
  assert (j <= n / Z.pos d) by nia.
  destruct (2 * (n mod Z.pos d) ?= Z.pos d); [destruct (Z.even _)| |]; lia.
Qed.

Lemma rhe_upper (n : Z) (d : positive) (j : Z) :
  n <= j * Z.pos d -> round_half_even n d <= j.
Proof.
  intros H. unfold round_half_even.
  pose proof (Z.div_mod n (Z.pos d) ltac:(lia)) as Hdm.
  pose proof (Z.mod_pos_bound n (Z.pos d) ltac:(lia)) as Hb.
  assert (Hf : n / Z.pos d <= j) by nia.
  destruct (Z.eq_dec (n / Z.pos d) j) as [E|E].
  - assert (Hr : n mod Z.pos d = 0) by nia. rewrite Hr.
    change (2 * 0) with 0. destruct (Z.compare_spec 0 (Z.pos d)); lia.
  - destruct (2 * (n mod Z.pos d) ?= Z.pos d); [destruct (Z.even _)| |]; lia.
Qed.

Lemma rhe_above_half (n : Z) (d : positive) (j : Z) :
  (2 * j + 1) * Z.pos d < 2 * n -> j + 1 <= round_half_even n d.
Proof.
  intros H. unfold round_half_even.
  pose proof (Z.div_mod n (Z.pos d) ltac:(lia)) as Hdm.
  pose proof (Z.mod_pos_bound n (Z.pos d) ltac:(lia)) as Hb.
  assert (Hf : j <= n / Z.pos d) by nia.
  destruct (Z.eq_dec (n / Z.pos d) j) as [E|E].
  - assert (Hr : Z.pos d < 2 * (n mod Z.pos d)) by nia.
    destruct (Z.compare_spec (2 * (n mod Z.pos d)) (Z.pos d)); lia.
  - destruct (2 * (n mod Z.pos d) ?= Z.pos d); [destruct (Z.even _)| |]; lia.
Qed.

Lemma pow2_pos (k : Z) : 0 <= k -> 0 < 2 ^ k.
Proof. intros. apply Z.pow_pos_nonneg; lia. Qed.

Lemma pow2_split (a b : Z) : 0 <= a -> 0 <= b -> 2 ^ (a + b) = 2 ^ a * 2 ^ b.
Proof. intros. apply Z.pow_add_r; lia. Qed.

Lemma ilog2_spec (n : Z) (d : positive) :
  0 < n ->
  Z.pos d * 2 ^ Z.max (ilog2 n d) 0 <= n * 2 ^ Z.max (- ilog2 n d) 0
  /\ n * 2 ^ Z.max (- ilog2 n d) 0 < 2 * Z.pos d * 2 ^ Z.max (ilog2 n d) 0.
Proof.
  intros Hn. unfold ilog2.
  destruct (Z.log2_spec n Hn) as [Ha1 Ha2].
  destruct (Z.log2_spec (Z.pos d) ltac:(lia)) as [Hb1 Hb2].
  pose proof (Z.log2_nonneg n) as Ha0. pose proof (Z.log2_nonneg (Z.pos d)) as Hb0.
  set (a := Z.log2 n) in *. set (b := Z.log2 (Z.pos d)) in *.
  rewrite <- Z.add_1_r in Ha2, Hb2.
  rewrite (pow2_split a 1) in Ha2 by lia. rewrite (pow2_split b 1) in Hb2 by lia.
  change (2 ^ 1) with 2 in *.
  destruct (Z.leb_spec (Z.pos d * 2 ^ Z.max (a - b) 0)
                       (n * 2 ^ Z.max (- (a - b)) 0)) as [Ht|Ht].
  - split; [exact Ht|].
    destruct (Z.le_gt_cases 0 (a - b)) as [Hs|Hs].
    + rewrite (Z.max_l (a - b) 0) in Ht |- * by lia.
      rewrite (Z.max_r (- (a - b)) 0) in Ht |- * by lia.
      change (2 ^ 0) with 1 in *.
      assert (E : 2 ^ a = 2 ^ (a - b) * 2 ^ b)
        by (rewrite <- pow2_split by lia; f_equal; lia).
      pose proof (pow2_pos (a - b) Hs) as HX.
      rewrite E in Ha1, Ha2.
      remember (2 ^ (a - b)) as X. remember (2 ^ b) as Y.
      assert (X * Y <= X * Z.pos d) by (apply Z.mul_le_mono_nonneg_l; lia).
      lia.
    + rewrite (Z.max_r (a - b) 0) in Ht |- * by lia.
      rewrite (Z.max_l (- (a - b)) 0) in Ht |- * by lia.
      change (2 ^ 0) with 1 in *.
      assert (E : 2 ^ b = 2 ^ (- (a - b)) * 2 ^ a)
        by (rewrite <- pow2_split by lia; f_equal; lia).
      pose proof (pow2_pos (- (a - b)) ltac:(lia)) as HX.
      rewrite E in Hb1, Hb2.
      remember (2 ^ (- (a - b))) as X. remember (2 ^ a) as A.
      assert (n * X < A * 2 * X) by (apply Z.mul_lt_mono_pos_r; lia).
      lia.
  - destruct (Z.le_gt_cases 1 (a - b)) as [Hs|Hs].
    + rewrite (Z.max_l (a - b)) in Ht by lia. rewrite (Z.max_r (- (a - b))) in Ht by lia.
      rewrite (Z.max_l (a - b - 1)) by lia. rewrite (Z.max_r (- (a - b - 1))) by lia.
      change (2 ^ 0) with 1 in *.
      assert (E : 2 ^ (a - b) = 2 ^ (a - b - 1) * 2).
      { replace (a - b) with ((a - b - 1) + 1) at 1 by lia.
        now rewrite pow2_split by lia. }
      assert (E' : 2 ^ a = 2 ^ (a - b - 1) * (2 ^ b * 2)).
      { replace a with ((a - b - 1) + (b + 1)) at 1 by lia.
        rewrite pow2_split by lia. rewrite (pow2_split b 1) by lia. reflexivity. }
      pose proof (pow2_pos (a - b - 1) ltac:(lia)) as HX.
      rewrite E in Ht. rewrite E' in Ha1, Ha2.
      remember (2 ^ (a - b - 1)) as X. remember (2 ^ b) as Y.
      assert (X * Z.pos d < X * (Y * 2)) by (apply Z.mul_lt_mono_pos_l; lia).
      lia.
    + rewrite (Z.max_r (a - b)) in Ht by lia. rewrite (Z.max_l (- (a - b))) in Ht by lia.
      rewrite (Z.max_r (a - b - 1)) by lia. rewrite (Z.max_l (- (a - b - 1))) by lia.
      change (2 ^ 0) with 1 in *.
      assert (E : 2 ^ (- (a - b - 1)) = 2 ^ (- (a - b)) * 2).
      { replace (- (a - b - 1)) with (- (a - b) + 1) by lia.
        now rewrite pow2_split by lia. }
      assert (E' : 2 ^ b * 2 = 2 ^ (- (a - b)) * (2 ^ a * 2)).
      { assert (E0 : 2 ^ b = 2 ^ (- (a - b)) * 2 ^ a)
          by (rewrite <- pow2_split by lia; f_equal; lia).
        rewrite E0. ring. }
      pose proof (pow2_pos (- (a - b)) ltac:(lia)) as HX.
      rewrite E.
      remember (2 ^ (- (a - b))) as X. remember (2 ^ a) as A.
      remember (2 ^ b) as Y.
      assert (X * A <= X * n) by (apply Z.mul_le_mono_nonneg_l; lia).
      lia.
Qed.

Lemma pow2_mono (a b : Z) : 0 <= a <= b -> 2 ^ a <= 2 ^ b.
Proof. intros. apply Z.pow_le_mono_r; lia. Qed.

Lemma round64_equiv (p q : Q) : Qeq p q -> round64 p = round64 q.
Proof. intros H. unfold round64. now rewrite (Qred_complete _ _ H). Qed.

Lemma mk_fin_equiv (negzero : bool) (p q : Q) :
  Qeq p q -> mk_fin negzero p = mk_fin negzero q.
Proof.
  intros H. unfold mk_fin.
  destruct (Qeq_bool p 0) eqn:Ep; destruct (Qeq_bool q 0) eqn:Eq.
  - reflexivity.
  - apply Qeq_bool_iff in Ep. apply Qeq_bool_neq in Eq.
    exfalso. apply Eq. now rewrite <- H.
  - apply Qeq_bool_iff in Eq. apply Qeq_bool_neq in Ep.
    exfalso. apply Ep. now rewrite H.
  - now apply round64_equiv.
Qed.

Lemma pack_not_NaN (neg : bool) (m e : Z) : pack neg m e <> NaN.
Proof.
  unfold pack. destruct (m =? 0); [discriminate|].
  destruct (_ || _); discriminate.
Qed.

Lemma mk_fin_not_NaN (negzero : bool) (q : Q) : mk_fin negzero q <> NaN.
Proof.
  unfold mk_fin, round64. destruct (Qeq_bool q 0); [discriminate|].
  apply pack_not_NaN.
Qed.

Lemma Qred_inject_Z (z : Z) : Qred (inject_Z z) = inject_Z z.
Proof.
  unfold Qred, inject_Z.
  pose proof (Z.ggcd_gcd z 1) as Hg.
  pose proof (Z.ggcd_correct_divisors z 1) as Hd.
  destruct (Z.ggcd z 1) as [g [aa bb]]. cbn [fst snd] in *.
  rewrite Z.gcd_1_r in Hg. subst g. destruct Hd as [Ha Hb].
  rewrite Z.mul_1_l in Ha, Hb. subst aa bb. reflexivity.
Qed.

(** A value in the range where the exponent is not positive: between
    2^-53 and 2^53. *)
Lemma binade_small (n : Z) (d : positive) :
  0 < n -> n < 2 ^ 53 * Z.pos d -> Z.pos d < n * 2 ^ 53 ->
  - 105 <= binade n d <= 0
  /\ Z.pos d * 2 ^ 52 <= n * 2 ^ (- binade n d)
  /\ n * 2 ^ (- binade n d) < Z.pos d * 2 ^ 53
  /\ mantissa n d (binade n d) = round_half_even (n * 2 ^ (- binade n d)) d.
Proof.
  intros Hn Hhi Hlo. unfold binade, mantissa.
  destruct (ilog2_spec n d Hn) as [H1 H2].
  set (L := ilog2 n d) in *.
  assert (HL : - 53 <= L <= 52).
  { split.
    - destruct (Z.le_gt_cases (- 53) L) as [|Hc]; [assumption|exfalso].
      rewrite (Z.max_r L 0) in H2 by lia.
      rewrite (Z.max_l (- L) 0) in H2 by lia. change (2 ^ 0) with 1 in H2.
      pose proof (pow2_mono 54 (- L) ltac:(lia)) as Hp.
      change (2 ^ 54) with (2 * 2 ^ 53) in Hp.
      assert (n * (2 * 2 ^ 53) <= n * 2 ^ (- L))
        by (apply Z.mul_le_mono_nonneg_l; lia).
      lia.
    - destruct (Z.le_gt_cases L 52) as [|Hc]; [assumption|exfalso].
      rewrite (Z.max_l L 0) in H1 by lia.
      rewrite (Z.max_r (- L) 0) in H1 by lia. change (2 ^ 0) with 1 in H1.
      pose proof (pow2_mono 53 L ltac:(lia)) as Hp.
      assert (Z.pos d * 2 ^ 53 <= Z.pos d * 2 ^ L)
        by (apply Z.mul_le_mono_nonneg_l; lia).
      lia. }
  rewrite (Z.max_l (L - 52) (- 1074)) by lia.
  rewrite (Z.max_l (- (L - 52)) 0) by lia.
  rewrite (Z.max_r (L - 52) 0) by lia.
  change (Z.to_pos (2 ^ 0)) with 1%positive. rewrite Pos.mul_1_r.
  split; [lia|]. split; [|split; [|reflexivity]].
  - destruct (Z.le_gt_cases 0 L) as [Hs|Hs].
    + rewrite (Z.max_l L 0) in H1 by lia.
      rewrite (Z.max_r (- L) 0) in H1 by lia. change (2 ^ 0) with 1 in H1.
      assert (E : 2 ^ 52 = 2 ^ L * 2 ^ (- (L - 52)))
        by (rewrite <- pow2_split by lia; f_equal; lia).
      rewrite E. pose proof (pow2_pos (- (L - 52)) ltac:(lia)).
      remember (2 ^ L) as X. remember (2 ^ (- (L - 52))) as P.
      assert (Z.pos d * X * P <= n * 1 * P)
        by (apply Z.mul_le_mono_nonneg_r; lia).
      lia.
    + rewrite (Z.max_r L 0) in H1 by lia.
      rewrite (Z.max_l (- L) 0) in H1 by lia. change (2 ^ 0) with 1 in H1.
      assert (E : 2 ^ (- (L - 52)) = 2 ^ (- L) * 2 ^ 52)
        by (rewrite <- pow2_split by lia; f_equal; lia).
      rewrite E. remember (2 ^ (- L)) as X.
      assert (Z.pos d * 1 * 2 ^ 52 <= n * X * 2 ^ 52)
        by (apply Z.mul_le_mono_nonneg_r; lia).
      lia.
  - destruct (Z.le_gt_cases 0 L) as [Hs|Hs].
    + rewrite (Z.max_l L 0) in H2 by lia.
      rewrite (Z.max_r (- L) 0) in H2 by lia. change (2 ^ 0) with 1 in H2.
      assert (E : 2 ^ 53 = 2 * 2 ^ L * 2 ^ (- (L - 52))).
      { replace 53 with (1 + L + - (L - 52)) at 1 by lia.
        rewrite !pow2_split by lia. reflexivity. }
      rewrite E. pose proof (pow2_pos (- (L - 52)) ltac:(lia)).
      remember (2 ^ L) as X. remember (2 ^ (- (L - 52))) as P.
      assert (n * 1 * P < 2 * Z.pos d * X * P)
        by (apply Z.mul_lt_mono_pos_r; lia).
      lia.
    + rewrite (Z.max_r L 0) in H2 by lia.
      rewrite (Z.max_l (- L) 0) in H2 by lia. change (2 ^ 0) with 1 in H2.
      assert (E : 2 ^ (- (L - 52)) = 2 ^ (- L) * 2 ^ 52)
        by (rewrite <- pow2_split by lia; f_equal; lia).
      rewrite E. change (2 ^ 53) with (2 * 2 ^ 52). remember (2 ^ (- L)) as X.
      assert (n * X * 2 ^ 52 < 2 * Z.pos d * 1 * 2 ^ 52)
        by (apply Z.mul_lt_mono_pos_r; lia).
      lia.
Qed.

Lemma pack_small (neg : bool) (m e : Z) :
  e <= 0 -> m <> 0 ->
  pack neg m e
  = Fin (Qred ((if neg then - m else m) # Z.to_pos (2 ^ (- e)))).
Proof.
  intros He Hm. unfold pack.
  destruct (Z.eqb_spec m 0); [contradiction|].
  destruct (Z.ltb_spec 971 e); [lia|].
  destruct (Z.eqb_spec e 971); [lia|]. cbn [orb andb].
  destruct (Z.ltb_spec e 0); [reflexivity|].
  assert (e = 0) by lia. subst e. f_equal. apply Qred_complete.
  unfold Qeq, inject_Z. cbn. lia.
Qed.

Lemma round64_integer (z : Z) :
  z <> 0 -> Z.abs z < 2 ^ 53 -> round64 (inject_Z z) = Fin (inject_Z z).
Proof.
  intros Hz Hb. unfold round64. rewrite Qred_inject_Z.
  cbn [inject_Z Qnum Qden].
  destruct (binade_small (Z.abs z) 1 ltac:(lia) ltac:(lia) ltac:(lia))
    as (He & Hlo & Hhi & ->).
  set (e := binade (Z.abs z) 1) in *.
  assert (Hm : round_half_even (Z.abs z * 2 ^ (- e)) 1 = Z.abs z * 2 ^ (- e)).
  { apply Z.le_antisymm; [apply rhe_upper | apply rhe_lower]; lia. }
  rewrite Hm. pose proof (pow2_pos (- e) ltac:(lia)) as HP.
  rewrite pack_small by nia.
  rewrite <- Qred_inject_Z. f_equal. apply Qred_complete.
  unfold Qeq, inject_Z. cbn [Qnum Qden]. rewrite Z2Pos.id by lia.
  destruct (Z.ltb_spec z 0); nia.
Qed.

Lemma mk_fin_integer (negzero : bool) (z : Z) :
  z <> 0 -> Z.abs z < 2 ^ 53 -> mk_fin negzero (inject_Z z) = Fin (inject_Z z).
Proof.
  intros Hz Hb. unfold mk_fin.
  destruct (Qeq_bool (inject_Z z) 0) eqn:E.
  - apply Qeq_bool_iff in E. unfold Qeq, inject_Z in E. cbn in E. lia.
  - now apply round64_integer.
Qed.

Lemma of_Z_nonzero (z : Z) :
  z <> 0 -> Z.abs z < 2 ^ 53 -> of_Z z = Fin (inject_Z z).
Proof. apply mk_fin_integer. Qed.

Lemma Qceiling_between (m k : Z) (P : positive) :
  (k - 1) * Z.pos P < m <= k * Z.pos P -> Qceiling (m # P) = k.
Proof.
  intros H. unfold Qceiling, Qfloor, Qopp. cbn [Qnum Qden].
  pose proof (Z.div_mod (- m) (Z.pos P) ltac:(lia)) as H1.
  pose proof (Z.mod_pos_bound (- m) (Z.pos P) ltac:(lia)) as H2.
  nia.
Qed.

(** The quotient of two integers below 2^53 is rounded to a double whose
    ceiling is the ceiling of the exact quotient. *)
Lemma ceil_of_rounded_quotient (c l : Z) :
  0 < c < 2 ^ 53 -> 0 < l < 2 ^ 53 ->
  Math_ceil (mk_fin false (Qdiv (inject_Z c) (inject_Z l)))
  = Fin (inject_Z ((c + l - 1) / l)).
Proof.
  intros Hc Hl.
  set (K := (c + l - 1) / l).
  assert (HK : (K - 1) * l < c <= K * l).
  { pose proof (Z.div_mod (c + l - 1) l ltac:(lia)) as H3.
    pose proof (Z.mod_pos_bound (c + l - 1) l ltac:(lia)) as H4.
    fold K in H3. nia. }
  assert (HK1 : 1 <= K <= c) by nia.
  rewrite (mk_fin_equiv false _ (c # Z.to_pos l)).
  2: { destruct l as [|pl|pl]; try lia.
       unfold Qeq, Qdiv, Qinv, Qmult, inject_Z. cbn [Qnum Qden Z.to_pos]. lia. }
  unfold mk_fin at 1.
  destruct (Qeq_bool (c # Z.to_pos l) 0) eqn:E.
  { apply Qeq_bool_iff in E. unfold Qeq in E. cbn [Qnum Qden] in E. lia. }
  unfold round64.
  pose proof (Qred_correct (c # Z.to_pos l)) as Hr.
  destruct (Qred (c # Z.to_pos l)) as [n0 d]. unfold Qeq in Hr.
  cbn [Qnum Qden] in Hr |- *. rewrite Z2Pos.id in Hr by lia.
  assert (Hn0 : 0 < n0) by nia.
  destruct (Z.ltb_spec n0 0); [lia|].
  rewrite (Z.abs_eq n0) by lia.
  destruct (binade_small n0 d ltac:(lia) ltac:(nia) ltac:(nia))
    as (He & Hlo & Hhi & ->).
  set (e := binade n0 d) in *.
  pose proof (pow2_pos (- e) ltac:(lia)) as HP.
  remember (2 ^ (- e)) as P eqn:EP.
  assert (HlP : l < 2 * P).
  { assert (l * 2 ^ 52 * Z.pos d <= c * P * Z.pos d) by nia.
    assert (l * 2 ^ 52 <= c * P)
      by (apply (Z.mul_le_mono_pos_r _ _ (Z.pos d)); lia).
    assert (c * P < 2 ^ 53 * P) by (apply Z.mul_lt_mono_pos_r; lia).
    change (2 ^ 53) with (2 * 2 ^ 52) in *. lia. }
  assert (Hup : round_half_even (n0 * P) d <= K * P).
  { apply rhe_upper.
    assert (n0 * l <= K * Z.pos d * l) by nia.
    assert (n0 <= K * Z.pos d)
      by (apply (Z.mul_le_mono_pos_r _ _ l); lia).
    nia. }
  assert (Hdn : (K - 1) * P + 1 <= round_half_even (n0 * P) d).
  { apply rhe_above_half.
    assert ((K - 1) * Z.pos d * l + Z.pos d <= n0 * l) by nia.
    apply (Z.mul_lt_mono_pos_r l); [lia|]. nia. }
  set (m := round_half_even (n0 * P) d) in *.
  rewrite pack_small by nia. rewrite <- EP. cbn [Math_ceil].
  rewrite (Qceiling_comp _ _ (Qred_correct _)).
  rewrite (Qceiling_between m K) by (rewrite Z2Pos.id by lia; nia).
  fold K. apply mk_fin_integer; lia.
Qed.

(** ** Parameters and the numeric check *)

Lemma of_Z_not_NaN (z : Z) : of_Z z <> NaN.
Proof. apply mk_fin_not_NaN. Qed.

Lemma isNaN_PInt (z : Z) : isNaN (PInt z) = false.
Proof.
  unfold isNaN. cbn [ToNumber]. pose proof (of_Z_not_NaN z).
  destruct (of_Z z); congruence.
Qed.

Lemma field_sent (obj : gmap string string) (k s : string) :
  obj !! k = Some s -> field obj k = PString s.
Proof. intros H. unfold field. now rewrite H. Qed.


Lemma NaN_string_nonempty (s : string) :
  StringToNumber s = NaN -> String.eqb s "" = false.
Proof.
  intros H. destruct s as [|c s]; [discriminate H | reflexivity].
Qed.

Lemma isNaN_string (s : string) :
  StringToNumber s = NaN -> isNaN (PString s) = true.
Proof. intros H. unfold isNaN. cbn [ToNumber]. now rewrite H. Qed.

Lemma isNaN_string_false (s : string) :
  StringToNumber s <> NaN -> isNaN (PString s) = false.
Proof.
  intros H. unfold isNaN. cbn [ToNumber].
  destruct (StringToNumber s); congruence.
Qed.

Lemma or_else_param (obj : gmap string string) (k : string) (d : Z) :
  d <> 0 -> or_else (field obj k) (PInt d) = param_or d (obj !! k).
Proof.
  intros Hd. unfold field, param_or, or_else.
  destruct (obj !! k) as [s|]; cbn [ToBoolean]; [|reflexivity].
  destruct (String.eqb s ""); reflexivity.
Qed.

Lemma or_else_default_param (obj : gmap string string) (k : string) (d : Z) :
  d <> 0 ->
  or_else (default_to (PInt d) (field obj k)) (PInt d) = param_or d (obj !! k).
Proof.
  intros Hd. unfold field, param_or, or_else, default_to.
  destruct (obj !! k) as [s|]; cbn [ToBoolean].
  - destruct (String.eqb s ""); reflexivity.
  - destruct (d =? 0) eqn:E; [lia | reflexivity].
Qed.

Lemma isNaN_or_else_sent (obj : gmap string string) (k s : string) (d : prim) :
  obj !! k = Some s -> StringToNumber s = NaN ->
  isNaN (or_else (field obj k) d) = true.
Proof.
  intros Hk Hs. rewrite (field_sent _ _ _ Hk). unfold or_else.
  cbn [ToBoolean]. rewrite (NaN_string_nonempty _ Hs). cbn [negb].
  now apply isNaN_string.
Qed.

Lemma isNaN_default_sent (obj : gmap string string) (k s : string) (d : prim) :
  obj !! k = Some s -> StringToNumber s = NaN ->
  isNaN (default_to d (field obj k)) = true.
Proof.
  intros Hk Hs. rewrite (field_sent _ _ _ Hk). cbn [default_to].
  now apply isNaN_string.
Qed.

Lemma isNaN_field_sent (obj : gmap string string) (k s : string) :
  obj !! k = Some s -> StringToNumber s = NaN -> isNaN (field obj k) = true.
Proof.
  intros Hk Hs. rewrite (field_sent _ _ _ Hk). now apply isNaN_string.
Qed.


Lemma isNaN_default_numeric (d : Z) (obj : gmap string string) (k : string) :
  numeric_or_absent (obj !! k) -> isNaN (default_to (PInt d) (field obj k)) = false.
Proof.
  intros Hn. unfold field. destruct (obj !! k) as [s|] eqn:E; cbn [default_to].
  - apply isNaN_string_false. now apply Hn.
  - apply isNaN_PInt.
Qed.

Lemma isNaN_string_iff (s : string) :
  isNaN (PString s) = true <-> StringToNumber s = NaN.
Proof.
  unfold isNaN. cbn [ToNumber].
  destruct (StringToNumber s); split; congruence.
Qed.

Lemma isNaN_default_iff (obj : gmap string string) (k : string) (d : Z) :
  isNaN (default_to (PInt d) (field obj k)) = true <-> non_numeric (obj !! k).
Proof.
  unfold field, non_numeric. destruct (obj !! k) as [s|]; cbn [default_to].
  - rewrite isNaN_string_iff. split.
    + intros H. exists s. split; [reflexivity | exact H].
    + intros [s' [[= <-] H]]. exact H.
  - rewrite isNaN_PInt. split; [discriminate | intros [s [H _]]; discriminate H].
Qed.

Lemma isNaN_or_else_iff (obj : gmap string string) (k : string) (d : Z) :
  d <> 0 ->
  isNaN (or_else (field obj k) (PInt d)) = true <-> non_numeric (obj !! k).
Proof.
  intros Hd. rewrite (or_else_param _ _ _ Hd). unfold param_or, non_numeric.
  destruct (obj !! k) as [s|].
  - destruct (String.eqb s "") eqn:E.
    + apply String.eqb_eq in E. subst s. rewrite isNaN_PInt.
      split; [discriminate | intros [s' [[= <-] H]]; discriminate H].
    + rewrite isNaN_string_iff. split.
      * intros H. exists s. split; [reflexivity | exact H].
      * intros [s' [[= <-] H]]. exact H.
  - rewrite isNaN_PInt. split; [discriminate | intros [s [H _]]; discriminate H].
Qed.

Lemma isNaN_field_iff (obj : gmap string string) (k : string) :
  isNaN (field obj k) = true <-> non_numeric (obj !! k) \/ obj !! k = None.
Proof.
  unfold field, non_numeric. destruct (obj !! k) as [s|].
  - rewrite isNaN_string_iff. split.
    + intros H. left. exists s. split; [reflexivity | exact H].
    + intros [[s' [[= <-] H]] | H]; [exact H | discriminate H].
  - split; [intros _; right; reflexivity | reflexivity].
Qed.

Lemma valid_checks (m : method) (req : request) :
  ~ invalid m req ->
  match m with
  | GetAllProducts =>
      isNaN (or_else (field (query req) "page") (PInt 1)) = false
      /\ isNaN (or_else (field (query req) "limit") (PInt 20)) = false
      /\ isNaN (field (query req) "description_length") = false
  | SearchProduct =>
      isNaN (or_else (field (query req) "page") (PInt 1)) = false
      /\ isNaN (or_else (field (query req) "limit") (PInt 20)) = false
      /\ isNaN (default_to (PInt 200) (field (query req) "description_length"))
         = false
  | GetProductsByCategory | GetProductsByDepartment =>
      isNaN (default_to (PInt 1) (field (query req) "page")) = false
      /\ isNaN (default_to (PInt 20) (field (query req) "limit")) = false
      /\ isNaN (default_to (PInt 200) (field (query req) "description_length"))
         = false
  | GetProduct =>
      isNaN (default_to (PInt 200) (field (query req) "description_length"))
      = false
  | _ => True
  end.
Proof.
  intros Hv. destruct m; cbn [invalid] in Hv; try exact I.
  all: repeat split; apply not_true_iff_false;
    rewrite ?isNaN_or_else_iff, ?isNaN_default_iff, ?isNaN_field_iff by lia;
    tauto.
Qed.

(** ** Decimal numerals and integer arithmetic *)

Lemma digit_range (c : ascii) (d : Z) :
  digit_val c = Some d ->
  48 <= Z.of_nat (nat_of_ascii c) <= 57 /\ d = Z.of_nat (nat_of_ascii c) - 48.
Proof.
  unfold digit_val.
  destruct (48 <=? Z.of_nat (nat_of_ascii c)) eqn:E1;
    destruct (Z.of_nat (nat_of_ascii c) <=? 57) eqn:E2; cbn [andb];
    intros H; try discriminate H.
  injection H as <-. lia.
Qed.

Lemma radix10_digit (c : ascii) : radix_val 10 c = digit_val c.
Proof.
  unfold radix_val, hex_val, digit_val.
  set (n := Z.of_nat (nat_of_ascii c)).
  destruct (48 <=? n) eqn:E1; destruct (n <=? 57) eqn:E2; cbn [andb].
  2-4: destruct (97 <=? n) eqn:E3; destruct (n <=? 102) eqn:E4; cbn [andb].
  all: try (destruct (65 <=? n) eqn:E5; destruct (n <=? 70) eqn:E6; cbn [andb]).
  all: try reflexivity.
  all: match goal with
       | |- (if ?b then _ else _) = _ => destruct b eqn:E7
       end; try reflexivity; lia.
Qed.

Lemma digit_not_ws (c : ascii) (d : Z) : digit_val c = Some d -> is_ws c = false.
Proof.
  intros H. apply digit_range in H as [H _]. unfold is_ws.
  destruct (Nat.leb_spec 9 (nat_of_ascii c));
    destruct (Nat.leb_spec (nat_of_ascii c) 13);
    destruct (Nat.eqb_spec (nat_of_ascii c) 32); cbn; try reflexivity; lia.
Qed.

Lemma read_digits_decimal (l : list ascii) (acc v : Z) (n : nat) :
  digits_value acc l = Some v ->
  read_digits 10 acc n l = (v, (n + List.length l)%nat, []).
Proof.
  revert acc n. induction l as [|c l IH]; intros acc n; cbn [digits_value read_digits].
  - intros [= <-]. rewrite Nat.add_0_r. reflexivity.
  - rewrite radix10_digit. destruct (digit_val c) as [d|]; [|discriminate].
    intros H. rewrite (IH _ (S n) H). cbn [List.length].
    rewrite Nat.add_succ_r. reflexivity.
Qed.

(** The ten digits. *)
Lemma digit_cases (c : ascii) (d : Z) :
  digit_val c = Some d ->
  In c ["0"; "1"; "2"; "3"; "4"; "5"; "6"; "7"; "8"; "9"]%char.
Proof.
  destruct c as [[] [] [] [] [] [] [] []]; vm_compute; intros H;
    try discriminate H; tauto.
Qed.

Lemma digit_not_ws2 (a b : ascii) (d : Z) :
  digit_val a = Some d -> is_ws2 a b = false.
Proof.
  intros H. apply digit_cases in H. cbn [In] in H.
  repeat (destruct H as [<- | H]; [reflexivity|]). contradiction.
Qed.

Lemma digit_not_ws3 (a b c : ascii) (d : Z) :
  digit_val a = Some d -> is_ws3 a b c = false.
Proof.
  intros H. apply digit_cases in H. cbn [In] in H.
  repeat (destruct H as [<- | H]; [reflexivity|]). contradiction.
Qed.

(** A numeral has no white space to drop, at either end. *)
Lemma drop_ws_none (l : list ascii) (acc v : Z) :
  digits_value acc l = Some v -> drop_ws l = l.
Proof.
  destruct l as [|a l]; [reflexivity|]. cbn [digits_value drop_ws].
  destruct (digit_val a) as [d|] eqn:E; [|discriminate]. intros _.
  rewrite (digit_not_ws _ _ E). destruct l as [|b l]; [reflexivity|].
  rewrite (digit_not_ws2 _ b _ E). destruct l as [|c l]; [reflexivity|].
  now rewrite (digit_not_ws3 _ b c _ E).
Qed.

Lemma drop_ws_end_none (l : list ascii) (acc v : Z) :
  digits_value acc l = Some v -> drop_ws_end l = l.
Proof.
  revert acc. induction l as [|a l IH]; intros acc Hv; [reflexivity|].
  cbn [drop_ws_end]. rewrite (drop_ws_none _ _ _ Hv).
  cbn [digits_value] in Hv.
  destruct (digit_val a) as [d|]; [|discriminate].
  now rewrite (IH _ Hv).
Qed.

Lemma trim_none (l : list ascii) (acc v : Z) :
  digits_value acc l = Some v -> trim l = l.
Proof.
  intros Hv. unfold trim. rewrite (drop_ws_none _ _ _ Hv).
  exact (drop_ws_end_none _ _ _ Hv).
Qed.

Lemma of_Z_literal (m : Z) :
  mk_fin false (Qmult (inject_Z (m * 1 + 0)) (pow10 (0 - 0))) = of_Z m.
Proof.
  unfold of_Z. replace (m * 1 + 0) with m by lia.
  change (pow10 (0 - 0)) with (inject_Z 1).
  unfold Qmult, inject_Z. cbn [Qnum Qden]. rewrite Z.mul_1_r. reflexivity.
Qed.

Lemma unsigned_decimal_digits (l : list ascii) (v : Z) :
  l <> [] -> digits_value 0 l = Some v -> unsigned_decimal false l = of_Z v.
Proof.
  intros Hne Hv. unfold unsigned_decimal.
  rewrite (read_digits_decimal l 0 v 0 Hv).
  destruct l as [|c l]; [congruence|].
  assert (Hinf : String.eqb (string_of_list_ascii (c :: l)) "Infinity" = false).
  { cbn [digits_value] in Hv. destruct (digit_val c) as [d|] eqn:E; [|discriminate].
    apply digit_cases in E. cbn [In] in E.
    repeat (destruct E as [<- | E]; [reflexivity|]). contradiction. }
  rewrite Hinf. cbn [List.length Nat.add exponent_part Z.of_nat Z.pow].
  apply of_Z_literal.
Qed.

Lemma StringToNumber_decimal (s : string) (v : Z) :
  decimal s = Some v -> StringToNumber s = of_Z v.
Proof.
  unfold decimal, StringToNumber.
  destruct (chars s) as [|c l] eqn:El; [discriminate|]. intros Hv.
  rewrite (trim_none _ _ _ Hv).
  rewrite <- (unsigned_decimal_digits (c :: l) v ltac:(discriminate) Hv).
  pose proof Hv as Hc. cbn [digits_value] in Hc.
  destruct (digit_val c) as [d|] eqn:E; [|discriminate].
  apply digit_cases in E. cbn [In] in E.
  destruct E as [<- | E].
  - destruct l as [|c' l]; [reflexivity|].
    cbn [digits_value] in Hc.
    destruct (digit_val c') as [d'|] eqn:E'; [|discriminate].
    apply digit_cases in E'. cbn [In] in E'.
    repeat (destruct E' as [<- | E']; [reflexivity|]). contradiction.
  - repeat (destruct E as [<- | E]; [reflexivity|]). contradiction.
Qed.

Lemma parseInt10_decimal (s : string) (v : Z) :
  decimal s = Some v -> parseInt10 (PString s) = of_Z v.
Proof.
  unfold decimal, parseInt10, parseInt10_string. cbn [ToString].
  destruct (chars s) as [|c l] eqn:El; [discriminate|]. intros Hv.
  rewrite (drop_ws_none _ _ _ Hv).
  assert (Hsign :
    match c :: l with
    | "+"%char :: t => (false, t)
    | "-"%char :: t => (true, t)
    | _ => (false, c :: l)
    end = (false, c :: l)).
  { pose proof Hv as Hc. cbn [digits_value] in Hc.
    destruct (digit_val c) as [d|] eqn:E; [|discriminate].
    apply digit_cases in E. cbn [In] in E.
    repeat (destruct E as [<- | E]; [reflexivity|]). contradiction. }
  rewrite Hsign, (read_digits_decimal _ 0 v 0 Hv). reflexivity.
Qed.

Lemma of_Z_integer (z : Z) : Z.abs z < 2 ^ 53 -> of_Z z = integer z.
Proof.
  intros Hb. unfold integer. destruct (Z.eqb_spec z 0) as [-> | Hz].
  - reflexivity.
  - now apply of_Z_nonzero.
Qed.

Lemma of_Z_one : of_Z 1 = Fin (inject_Z 1).
Proof. apply of_Z_nonzero; [lia | reflexivity]. Qed.

(** [p - 1] on a page that is a natural number below 2^53. *)
Lemma page_before (p : Z) :
  0 <= p < 2 ^ 53 ->
  num_sub (of_Z p) (of_Z 1)
  = if p =? 1 then Zero false else Fin (inject_Z (p - 1)).
Proof.
  intros Hp. rewrite of_Z_one.
  destruct (Z.eq_dec p 0) as [-> | Hp0]; [reflexivity|].
  rewrite (of_Z_nonzero p) by lia. cbn [num_sub].
  destruct (Z.eqb_spec p 1) as [-> | Hp1]; [reflexivity|].
  rewrite (mk_fin_equiv false _ (inject_Z (p - 1))).
  - apply mk_fin_integer; lia.
  - unfold Qeq, Qminus, Qplus, Qopp, inject_Z. cbn [Qnum Qden]. lia.
Qed.

(** [(p - 1) * l] on a page and a limit that are natural numbers below
    2^53: one rounding, of the exact product. *)
Lemma offset_of_integers (p l : Z) :
  0 <= p < 2 ^ 53 -> 0 <= l < 2 ^ 53 ->
  num_mul (num_sub (of_Z p) (of_Z 1)) (of_Z l)
  = if (p =? 0) && (l =? 0) then Zero true else of_Z ((p - 1) * l).
Proof.
  intros Hp Hl. rewrite (page_before p Hp).
  destruct (Z.eqb_spec l 0) as [-> | Hl0].
  - change (of_Z 0) with (Zero false). rewrite Z.mul_0_r, andb_true_r.
    destruct (Z.eqb_spec p 1) as [-> | Hp1]; [reflexivity|].
    cbn [num_mul]. unfold is_neg, inject_Z. cbn [Qnum xorb].
    destruct (Z.eqb_spec p 0) as [-> | Hp0]; [reflexivity|].
    destruct (Z.ltb_spec (p - 1) 0); [lia | reflexivity].
  - rewrite andb_false_r, (of_Z_nonzero l) by lia.
    destruct (Z.eqb_spec p 1) as [-> | Hp1].
    + cbn [num_mul]. unfold is_neg, inject_Z. cbn [Qnum xorb].
      destruct (Z.ltb_spec l 0); [lia | reflexivity].
    + cbn [num_mul]. unfold of_Z. apply mk_fin_equiv.
      unfold Qeq, Qmult, inject_Z. cbn [Qnum Qden]. lia.
Qed.

Lemma ceiling_of_fraction (c l : Z) :
  0 < l -> Qceiling (Qdiv (inject_Z c) (inject_Z l)) = (c + l - 1) / l.
Proof.
  intros Hl. destruct l as [|pl|pl]; try lia.
  unfold Qceiling, Qfloor, Qdiv, Qinv, Qmult, Qopp, inject_Z. cbn [Qnum Qden].
  rewrite Pos.mul_1_l, Z.mul_1_r.
  pose proof (Z.div_mod (- c) (Z.pos pl) ltac:(lia)) as H1.
  pose proof (Z.mod_pos_bound (- c) (Z.pos pl) ltac:(lia)) as H2.
  pose proof (Z.div_mod (c + Z.pos pl - 1) (Z.pos pl) ltac:(lia)) as H3.
  pose proof (Z.mod_pos_bound (c + Z.pos pl - 1) (Z.pos pl) ltac:(lia)) as H4.
  nia.
Qed.

(** [Math.ceil(c / l)] on a count and a limit that are natural numbers below
    2^53: the rounding of the quotient never carries it past an integer. *)
Lemma ceil_of_integers (c l : Z) :
  0 <= c < 2 ^ 53 -> 0 <= l < 2 ^ 53 ->
  Math_ceil (num_div (of_Z c) (of_Z l)) = total_pages c l.
Proof.
  intros Hc Hl. unfold total_pages.
  destruct (Z.eqb_spec l 0) as [-> | Hl0].
  - change (of_Z 0) with (Zero false).
    destruct (Z.eqb_spec c 0) as [-> | Hc0]; [reflexivity|].
    rewrite (of_Z_nonzero c) by lia. cbn [num_div Math_ceil].
    unfold is_neg, inject_Z. cbn [Qnum].
    destruct (Z.ltb_spec c 0); [lia | reflexivity].
  - rewrite ceiling_of_fraction by lia.
    rewrite (of_Z_nonzero l) by lia.
    destruct (Z.eq_dec c 0) as [-> | Hc0].
    + change (of_Z 0) with (Zero false). cbn [num_div Math_ceil].
      unfold is_neg, inject_Z. cbn [Qnum].
      destruct (Z.ltb_spec l 0); [lia|]. cbn [xorb].
      rewrite Z.div_small by lia. reflexivity.
    + rewrite (of_Z_nonzero c) by lia. cbn [num_div].
      rewrite ceil_of_rounded_quotient by lia. unfold integer.
      destruct (Z.eqb_spec ((c + l - 1) / l) 0) as [E | _]; [|reflexivity].
      pose proof (Z.div_le_lower_bound (c + l - 1) l 1 ltac:(lia) ltac:(lia)).
      lia.
Qed.

(** A positive integer is rounded to a positive double, or to the positive
    infinity. *)
Lemma mantissa_normal (n : Z) (d : positive) :
  0 < n -> Z.pos d <= n -> 2 ^ 52 <= mantissa n d (binade n d).
Proof.
  intros Hn Hd. unfold binade, mantissa.
  destruct (ilog2_spec n d Hn) as [H1 H2].
  set (L := ilog2 n d) in *.
  assert (HL : 0 <= L).
  { destruct (Z.le_gt_cases 0 L) as [|Hc]; [assumption|exfalso].
    rewrite (Z.max_r L 0) in H2 by lia.
    rewrite (Z.max_l (- L) 0) in H2 by lia. change (2 ^ 0) with 1 in H2.
    pose proof (pow2_mono 1 (- L) ltac:(lia)) as Hp.
    change (2 ^ 1) with 2 in Hp.
    assert (n * 2 <= n * 2 ^ (- L)) by (apply Z.mul_le_mono_nonneg_l; lia).
    lia. }
  rewrite (Z.max_l L 0) in H1 by lia.
  rewrite (Z.max_r (- L) 0) in H1 by lia. change (2 ^ 0) with 1 in H1.
  rewrite (Z.max_l (L - 52) (- 1074)) by lia.
  apply rhe_lower. rewrite Pos2Z.inj_mul.
  destruct (Z.le_gt_cases 0 (L - 52)) as [He | He].
  - rewrite (Z.max_l (L - 52) 0), (Z.max_r (- (L - 52)) 0) by lia.
    pose proof (pow2_pos (L - 52) He).
    rewrite Z2Pos.id by lia. change (2 ^ 0) with 1.
    assert (E : 2 ^ L = 2 ^ 52 * 2 ^ (L - 52))
      by (rewrite <- pow2_split by lia; f_equal; lia).
    rewrite E in H1. lia.
  - rewrite (Z.max_r (L - 52) 0), (Z.max_l (- (L - 52)) 0) by lia.
    change (Z.pos (Z.to_pos (2 ^ 0))) with 1.
    assert (E : 2 ^ 52 = 2 ^ L * 2 ^ (- (L - 52)))
      by (rewrite <- pow2_split by lia; f_equal; lia).
    rewrite E. pose proof (pow2_pos (- (L - 52)) ltac:(lia)).
    remember (2 ^ L) as X. remember (2 ^ (- (L - 52))) as P.
    assert (Z.pos d * X * P <= n * 1 * P)
      by (apply Z.mul_le_mono_nonneg_r; lia).
    lia.
Qed.

Lemma Qred_sign (q : Q) : 0 <= Qnum q -> 0 <= Qnum (Qred q).
Proof.
  intros H. pose proof (Qred_correct q) as E. unfold Qeq in E.
  destruct (Qred q) as [a b]. cbn [Qnum Qden] in *. nia.
Qed.

Lemma pack_positive (m e : Z) :
  0 < m ->
  pack false m e = Inf false
  \/ exists q, pack false m e = Fin q /\ is_neg q = false.
Proof.
  intros Hm. unfold pack. destruct (Z.eqb_spec m 0); [lia|].
  destruct (_ || _); [now left | right].
  eexists. split; [reflexivity|]. unfold is_neg.
  apply Z.ltb_ge, Qred_sign.
  destruct (e <? 0); cbn [Qnum inject_Z]; [lia|].
  pose proof (Z.pow_nonneg 2 e ltac:(lia)). nia.
Qed.

Lemma of_Z_positive (z : Z) :
  0 < z ->
  of_Z z = Inf false \/ exists q, of_Z z = Fin q /\ is_neg q = false.
Proof.
  intros Hz. unfold of_Z, mk_fin.
  destruct (Qeq_bool (inject_Z z) 0) eqn:E.
  { apply Qeq_bool_iff in E. unfold Qeq, inject_Z in E. cbn in E. lia. }
  unfold round64. rewrite Qred_inject_Z. cbn [inject_Z Qnum Qden].
  destruct (Z.ltb_spec z 0); [lia|]. rewrite Z.abs_eq by lia.
  apply pack_positive.
  pose proof (mantissa_normal z 1 Hz ltac:(lia)). lia.
Qed.

Lemma decimal_nonempty (s : string) (v : Z) :
  decimal s = Some v -> String.eqb s "" = false.
Proof. destruct s; [discriminate | reflexivity]. Qed.

(** A page or limit that is absent or a numeral converts, by [Number] and by
    [parseInt] alike, to the integer it stands for. *)
Lemma param_numeral (d : Z) (sent : option string) (v : Z) :
  d = 1 \/ d = 20 ->
  numeral_param d sent = Some v ->
  ToNumber (param_or d sent) = of_Z v /\ parseInt10 (param_or d sent) = of_Z v.
Proof.
  intros Hd Hv. unfold numeral_param, param_or in *.
  destruct sent as [s|].
  - rewrite (decimal_nonempty _ _ Hv). cbn [ToNumber].
    split; [now apply StringToNumber_decimal | now apply parseInt10_decimal].
  - injection Hv as <-. destruct Hd as [-> | ->]; split; reflexivity.
Qed.

Lemma digits_value_nonneg (l : list ascii) (acc v : Z) :
  0 <= acc -> digits_value acc l = Some v -> 0 <= v.
Proof.
  revert acc. induction l as [|c l IH]; intros acc Hacc; cbn [digits_value].
  - intros [= <-]. exact Hacc.
  - destruct (digit_val c) as [d|] eqn:E; [|discriminate].
    destruct (digit_range _ _ E) as [Hr ->]. apply IH. lia.
Qed.

Lemma decimal_nonneg (s : string) (v : Z) : decimal s = Some v -> 0 <= v.
Proof.
  unfold decimal. destruct (chars s); [discriminate|].
  now apply digits_value_nonneg.
Qed.

(** A page or limit that is absent, empty or a numeral is a natural number,
    and converts, by [Number] and by [parseInt] alike, to the double
    nearest to it. *)
Lemma param_integer (d : Z) (sent : option string) (v : Z) :
  d = 1 \/ d = 20 ->
  integer_param d sent = Some v ->
  0 <= v
  /\ ToNumber (param_or d sent) = of_Z v
  /\ parseInt10 (param_or d sent) = of_Z v.
Proof.
  intros Hd Hv. unfold integer_param in Hv.
  assert (Hdef : integer_param d None = Some v -> 0 <= v
            /\ ToNumber (PInt d) = of_Z v /\ parseInt10 (PInt d) = of_Z v).
  { intros [= <-]. destruct Hd as [-> | ->]; repeat split; lia. }
  unfold param_or. destruct sent as [s|]; [|now apply Hdef].
  destruct (String.eqb s ""); [now apply Hdef|].
  split; [now apply (decimal_nonneg s)|].
  split; [now apply StringToNumber_decimal | now apply parseInt10_decimal].
Qed.

(** A request whose page and limit are natural numbers is invalid only by
    its description_length. *)
Lemma integer_param_numeric (d : Z) (sent : option string) (v : Z) :
  integer_param d sent = Some v -> ~ non_numeric sent.
Proof.
  unfold integer_param. intros Hv [s [-> Hs]].
  destruct (String.eqb s "") eqn:E.
  { apply String.eqb_eq in E. subst s. discriminate Hs. }
  rewrite (StringToNumber_decimal _ _ Hv) in Hs.
  now apply of_Z_not_NaN in Hs.
Qed.

Lemma limit_or_twenty (obj : gmap string string) (k : string) :
  (if ToBoolean (default_to (PInt 20) (field obj k))
   then parseInt10 (default_to (PInt 20) (field obj k))
   else of_Z 20)
  = parseInt10 (param_or 20 (obj !! k)).
Proof.
  unfold field, param_or. destruct (obj !! k) as [s|]; cbn [default_to].
  - cbn [ToBoolean]. destruct (String.eqb s ""); reflexivity.
  - reflexivity.
Qed.

Lemma pagination_of_valid (m : method) (orm : ORM) (attrs : list attr)
    (req : request) :
  paginated m = true ->
  ~ invalid m req ->
  exists c o rest,
    snd (run (controller m) orm attrs req) = Query c :: rest
    /\ call_options c = Some o
    /\ offset o
       = Some (num_mul
                 (num_sub (ToNumber (param_or 1 (query req !! "page"))) (of_Z 1))
                 (ToNumber (param_or 20 (query req !! "limit"))))
    /\ limit o = Some (parseInt10 (param_or 20 (query req !! "limit"))).
Proof.
  intros Hm Hv. pose proof (valid_checks m req Hv) as Hc.
  destruct m; try discriminate Hm; destruct Hc as (H1 & H2 & H3); exec.
  all: rewrite H1, H2, H3; cbn [orb]; tidy; branch.
  all: do 3 eexists; split; [reflexivity|]; cbn [call_options]; split;
    [reflexivity|]; cbn [offset limit].
  all: rewrite ?limit_or_twenty, ?or_else_default_param, ?or_else_param by lia.
  all: split; reflexivity.
Qed.

(** ** Pagination metadata *)

(** What [getAllProducts] does with a request it does not turn away. *)
Lemma getAllProducts_valid (orm : ORM) (attrs : list attr) (req : request) :
  ~ invalid GetAllProducts req ->
  snd (run (controller GetAllProducts) orm attrs req)
  = Query (FindAndCountAll Product (products_query attrs req))
    :: match findAndCountAll orm Product (products_query attrs req) with
       | Ok (rows, count) =>
           [Json 200
              (pagination_body
                 (parseInt10 (param_or 1 (query req !! "page")))
                 (parseInt10 (param_or 20 (query req !! "limit")))
                 (Math_ceil
                    (num_div (of_Z (Z.of_N count))
                       (ToNumber (param_or 20 (query req !! "limit")))))
                 (of_Z (Z.of_N count)) rows)]
       | Throw e => [Next e]
       end.
Proof.
  intros Hv. destruct (valid_checks GetAllProducts req Hv) as (H1 & H2 & H3).
  unfold products_query. exec. rewrite H1, H2, H3. cbn [orb]. tidy.
  rewrite !or_else_param by lia. branch; reflexivity.
Qed.

Lemma getAllProducts_invalid (orm : ORM) (attrs : list attr) (req : request) :
  invalid GetAllProducts req ->
  snd (run (controller GetAllProducts) orm attrs req)
  = [Json 400 (bad_request "Query parameters should be valid integer values")].
Proof.
  intros Hi. exec.
  assert (Hc : isNaN (or_else (field (query req) "page") (PInt 1))
               || isNaN (or_else (field (query req) "limit") (PInt 20))
               || isNaN (field (query req) "description_length") = true).
  { cbn [invalid] in Hi. rewrite !orb_true_iff.
    rewrite !isNaN_or_else_iff, isNaN_field_iff by lia. tauto. }
  rewrite Hc. reflexivity.
Qed.

(** C1.  Take a [getAllProducts] request whose page and limit are absent,
    empty or decimal numerals, of natural numbers [p] and [l] below 2^53
    (1 and 20 by default), against a table of fewer than 2^53 records.  It
    is answered 200 exactly when its description_length is sent and numeric
    and the mapper resolves, with rows and a count; the body then holds
    those rows and a paginationMeta whose currentPage is [p], whose
    currentPageSize is [l], whose totalRecords is the count and whose
    totalPages is the ceiling of count / l (for a limit of 0: infinity, or
    NaN over an empty table). *)
Theorem pagination_meta (orm : ORM) (attrs : list attr) (req : request)
    (p l : Z) :
  integer_param 1 (query req !! "page") = Some p ->
  integer_param 20 (query req !! "limit") = Some l ->
  p < 2 ^ 53 ->
  l < 2 ^ 53 ->
  (forall rows count,
     findAndCountAll orm Product (products_query attrs req) = Ok (rows, count) ->
     Z.of_N count < 2 ^ 53) ->
  forall body,
    In (Json 200 body) (snd (run (controller GetAllProducts) orm attrs req))
    <-> ~ invalid GetAllProducts req
        /\ exists rows count,
             findAndCountAll orm Product (products_query attrs req)
             = Ok (rows, count)
             /\ body
                = pagination_body (integer p) (integer l)
                    (total_pages (Z.of_N count) l)
                    (integer (Z.of_N count)) rows.
Proof.
  intros Hp Hl Hpb Hlb Hcount body.
  destruct (param_integer 1 _ _ (or_introl eq_refl) Hp) as (Hp0 & _ & Hpi).
  destruct (param_integer 20 _ _ (or_intror eq_refl) Hl) as (Hl0 & Hln & Hli).
  assert (Hmeta : forall rows count,
            findAndCountAll orm Product (products_query attrs req)
            = Ok (rows, count) ->
            pagination_body
              (parseInt10 (param_or 1 (query req !! "page")))
              (parseInt10 (param_or 20 (query req !! "limit")))
              (Math_ceil
                 (num_div (of_Z (Z.of_N count))
                    (ToNumber (param_or 20 (query req !! "limit")))))
              (of_Z (Z.of_N count)) rows
            = pagination_body (integer p) (integer l)
                (total_pages (Z.of_N count) l) (integer (Z.of_N count)) rows).
  { intros rows count Hok. specialize (Hcount _ _ Hok).
    rewrite Hpi, Hli, Hln, ceil_of_integers by lia.
    rewrite !of_Z_integer by lia. reflexivity. }
  split.
  - intros Hin.
    assert (Hv : ~ invalid GetAllProducts req).
    { intros Hi. rewrite (getAllProducts_invalid _ _ _ Hi) in Hin.
      destruct Hin as [Hin | []]. discriminate Hin. }
    split; [exact Hv|]. rewrite (getAllProducts_valid _ _ _ Hv) in Hin.
    destruct (findAndCountAll orm Product (products_query attrs req))
      as [[rows count]|e] eqn:Hok.
    + destruct Hin as [Hin | [Hin | []]]; [discriminate Hin|].
      injection Hin as <-. exists rows, count.
      split; [reflexivity | now apply Hmeta].
    + destruct Hin as [Hin | [Hin | []]]; discriminate Hin.
  - intros (Hv & rows & count & Hok & ->).
    rewrite (getAllProducts_valid _ _ _ Hv), Hok, (Hmeta _ _ Hok).
    right. left. reflexivity.
Qed.

Lemma pagination_meta_witness :
  In (Json 200
        (pagination_body (integer 3) (integer 7) (integer 15) (integer 101) []))
     (snd (run (controller GetAllProducts) (counting_orm 101)
             initial_attributes products_page_3_limit_7)).
Proof.
  refine (proj2 (pagination_meta (counting_orm 101) initial_attributes
                   products_page_3_limit_7 3 7 _ _ _ _ _ _) _).
  - reflexivity.
  - reflexivity.
  - lia.
  - lia.
  - intros rows count [= _ <-]. lia.
  - split; [refute_invalid|].
    exists [], 101%N. split; reflexivity.
Defined.

(** C1, as stated, fails: a limit of [1e1] is numeric and is 10, the total
    of pages is counted in tens, 2 for 15 records, and the currentPageSize
    sent is 1, what [parseInt] reads of it. *)
Lemma exponent_limit_page_size :
  query products_limit_1e1 !! "limit" = Some "1e1"
  /\ StringToNumber "1e1" = integer 10
  /\ snd (run (controller GetAllProducts) (counting_orm 15)
            initial_attributes products_limit_1e1)
     = [Query (FindAndCountAll Product
                 (products_query initial_attributes products_limit_1e1));
        Json 200
          (pagination_body (integer 1) (integer 1) (integer 2) (integer 15)
             [])].
Proof. repeat split; reflexivity. Qed.

(** A limit with a fraction is numeric too, and the quotient is one of
    doubles: 1.4 is held as a little less, 21 / 1.4 comes out a little more
    than 15, and 21 records make 16 pages. *)
Example fractional_limit_total_pages :
  Math_ceil (num_div (of_Z 21) (StringToNumber "1.4")) = integer 16
  /\ Qceiling (21 / (14 # 10)) = 15.
Proof. split; reflexivity. Qed.

(** ** Validation *)

(** C2, as amended.  On the four list methods a page, limit or
    description_length that is sent and does not convert to a number, and on
    [getProduct] such a description_length, is answered with status 400 and
    the body [{ err, status: false }]; no query is issued and the module
    state is untouched. *)
Theorem non_numeric_parameter_is_rejected (m : method) (orm : ORM)
    (attrs : list attr) (req : request) (k s : string) :
  checks m k = true ->
  query req !! k = Some s ->
  StringToNumber s = NaN ->
  run (controller m) orm attrs req
  = (attrs, [Json 400 (bad_request (validation_message m))]).
Proof.
  intros Hc Hk Hs.
  destruct m; try discriminate Hc; cbn [checks] in Hc.
  5: { apply String.eqb_eq in Hc. subst k. exec.
       rewrite (isNaN_default_sent _ _ _ _ Hk Hs). reflexivity. }
  all: apply orb_true_iff in Hc as [Hc | Hc];
    [apply orb_true_iff in Hc as [Hc | Hc] |];
    apply String.eqb_eq in Hc; subst k; exec.
  all: try rewrite (isNaN_or_else_sent _ _ _ _ Hk Hs).
  all: try rewrite (isNaN_default_sent _ _ _ _ Hk Hs).
  all: try rewrite (isNaN_field_sent _ _ _ Hk Hs).
  all: rewrite ?orb_true_r; reflexivity.
Qed.

Lemma non_numeric_parameter_is_rejected_witness :
  run (controller SearchProduct) empty_orm initial_attributes
      (mk_request [("limit", "ten")] [])
  = (initial_attributes,
     [Json 400 (bad_request "Query parameters should be valid integer values")]).
Proof.
  apply (non_numeric_parameter_is_rejected SearchProduct empty_orm
           initial_attributes (mk_request [("limit", "ten")] []) "limit" "ten");
    reflexivity.
Defined.

(** C2, as stated, fails: a description_length of 1.5 is sent and is not an
    integer, yet [getProduct] issues its query and answers from the lookup,
    here with 404. *)
Lemma fractional_length_is_not_rejected :
  query product_7_length_1_5 !! "description_length" = Some "1.5"
  /\ is_integer (StringToNumber "1.5") = false
  /\ snd (run (controller GetProduct) empty_orm initial_attributes
            product_7_length_1_5)
     = [Query (FindByPk Product (PString "7")
                 (Some (product_options initial_attributes (PString "1.5"))));
        Json 404 (not_found "Product with id 7 does not exist")].
Proof. repeat split; reflexivity. Qed.

(** ** Search by name *)

Lemma starts_with_spec (s t : string) :
  Reference.starts_with s t = true <-> exists after, t = s ++ after.
Proof.
  revert t. induction s as [|c s IH]; intros t; cbn [Reference.starts_with].
  - split; [intros _; exists t | intros _]; reflexivity.
  - destruct t as [|d t].
    + split; [discriminate | intros [after H]; discriminate H].
    + rewrite andb_true_iff, Ascii.eqb_eq, IH. split.
      * intros [-> [after ->]]. exists after. reflexivity.
      * intros [after H]. cbn in H. injection H as -> ->. eauto.
Qed.

Lemma contains_spec (s t : string) :
  Reference.contains s t = true <-> exists before after, t = before ++ s ++ after.
Proof.
  induction t as [|d t IH]; cbn [Reference.contains].
  - rewrite orb_false_r, starts_with_spec. split.
    + intros [after H]. exists "", after. exact H.
    + intros [before [after H]]. destruct before; [|discriminate H].
      exists after. exact H.
  - rewrite orb_true_iff, starts_with_spec, IH. split.
    + intros [[after H] | [before [after H]]].
      * exists "", after. exact H.
      * exists (String d before), after. cbn. now rewrite H.
    + intros [before [after H]]. destruct before as [|e before].
      * left. exists after. exact H.
      * right. cbn in H. injection H as _ H. exists before, after. exact H.
Qed.

Lemma all_words_on (req : request) :
  strict_eq_string (field (query req) "all_words") "on" = true
  <-> query req !! "all_words" = Some "on".
Proof.
  unfold field. destruct (query req !! "all_words") as [w|]; cbn.
  - rewrite String.eqb_eq. split; congruence.
  - split; discriminate.
Qed.

Lemma row_selected_spec (req : request) (row : value) :
  Reference.row_matches [("name", search_param req)] row = true
  <-> name_selected req row.
Proof.
  unfold Reference.row_matches, name_selected, search_param.
  cbn [forallb fst snd]. rewrite andb_true_r.
  pose proof (all_words_on req) as Hon.
  destruct (strict_eq_string (field (query req) "all_words") "on").
  - assert (Hw : query req !! "all_words" = Some "on") by now apply Hon.
    destruct row as [| | | | | |fields]; cbn [prop property Reference.cond_holds];
      try (split; [discriminate | intros [? [H _]]; discriminate H]).
    destruct (default VUndefined (assoc "name" fields)) as [| | | |t| |];
      cbn [Reference.cond_holds];
      try (split; [discriminate | intros [? [H _]]; discriminate H]).
    rewrite String.eqb_eq. split.
    + intros ->. eauto.
    + intros [nm [H [[_ ->] | [Hne _]]]]; [now injection H | contradiction].
  - assert (Hw : query req !! "all_words" <> Some "on").
    { intros H. apply Hon in H. discriminate H. }
    destruct row as [| | | | | |fields]; cbn [prop property Reference.cond_holds];
      try (split; [discriminate | intros [? [H _]]; discriminate H]).
    destruct (default VUndefined (assoc "name" fields)) as [| | | |t| |];
      cbn [Reference.cond_holds];
      try (split; [discriminate | intros [? [H _]]; discriminate H]).
    rewrite contains_spec. split.
    + intros H. exists t. split; [reflexivity|]. right. split; assumption.
    + intros [nm [H [[Hon' _] | [_ Hsub]]]]; [contradiction|].
      injection H as ->. exact Hsub.
Qed.

(** C3, as amended.  Against the reference mapper, the products a
    [searchProduct] request is answered with are one page of the selected
    rows, in table order: the rows whose name equals the query string when
    all_words is [on], the rows whose name contains it otherwise; the page
    skips [(page - 1) * limit] of them and holds at most
    [parseInt(limit, 10)]. *)
Theorem search_returns_a_page_of_matches (products : list value)
    (attrs : list attr) (req : request) (rows : list value) :
  In (Json 200 (VArr rows))
     (snd (run (controller SearchProduct) (Reference.orm products) attrs req)) ->
  exists (selected : value -> bool) (skip take : nat),
    (forall row, selected row = true <-> name_selected req row)
    /\ Reference.as_count
         (num_mul
            (num_sub (ToNumber (param_or 1 (query req !! "page"))) (of_Z 1))
            (ToNumber (param_or 20 (query req !! "limit")))) = Some skip
    /\ Reference.as_count (parseInt10 (param_or 20 (query req !! "limit")))
       = Some take
    /\ rows = firstn take (skipn skip (List.filter selected products)).
Proof.
  exec. rewrite !or_else_param by lia.
  fold (search_text req). fold (search_param req).
  destruct (_ || _)%bool; tidy.
  { intros [H | []]; discriminate H. }
  cbn [Reference.orm findAll Reference.select Reference.paginate where_ offset limit].
  destruct (Reference.as_count (num_mul _ _)) as [skip|] eqn:Hskip;
    [destruct (Reference.as_count (parseInt10 _)) as [take|] eqn:Htake|]; tidy.
  2,3: intros [H | [H | []]]; discriminate H.
  intros [H | [H | []]]; [discriminate H|]. injection H as <-.
  exists (Reference.row_matches [("name", search_param req)]), skip, take.
  repeat split; try reflexivity; apply row_selected_spec.
Qed.

Lemma search_returns_a_page_of_matches_witness :
  exists (selected : value -> bool) (skip take : nat),
    (forall row, selected row = true <-> name_selected search_shirt_all_words row)
    /\ Reference.as_count
         (num_mul
            (num_sub
               (ToNumber (param_or 1 (query search_shirt_all_words !! "page")))
               (of_Z 1))
            (ToNumber (param_or 20 (query search_shirt_all_words !! "limit"))))
       = Some skip
    /\ Reference.as_count
         (parseInt10 (param_or 20 (query search_shirt_all_words !! "limit")))
       = Some take
    /\ firstn 20 shirts = firstn take (skipn skip (List.filter selected shirts)).
Proof.
  apply (search_returns_a_page_of_matches shirts initial_attributes
           search_shirt_all_words (firstn 20 shirts)).
  vm_compute. right. left. reflexivity.
Defined.

(** C3, as stated, fails: with all_words [on] and twenty-one products named
    exactly as the query string, the answer holds the first twenty; the
    twenty-first is selected and is not returned. *)
Lemma search_stops_at_twenty_matches :
  snd (run (controller SearchProduct) (Reference.orm shirts) initial_attributes
         search_shirt_all_words)
  = [Query (FindAll Product
              (Some {| attributes :=
                         Some (initial_attributes ++
                               [Literal "SUBSTRING(description, 1, 200) as description"])%list;
                       limit := Some (of_Z 20);
                       offset := Some (of_Z 0);
                       where_ := [("name", OpEq "shirt")];
                       include := [] |}));
     Json 200 (VArr (firstn 20 shirts))]
  /\ In (shirt 21) shirts
  /\ name_selected search_shirt_all_words (shirt 21)
  /\ ~ In (shirt 21) (firstn 20 shirts).
Proof.
  split; [reflexivity|]. split; [|split].
  - unfold shirts. apply in_map_iff. exists 21%nat. split; [reflexivity|].
    apply in_seq. lia.
  - exists "shirt". split; [reflexivity|]. left. split; reflexivity.
  - intros H. vm_compute in H.
    repeat (destruct H as [H | H]; [discriminate H|]). exact H.
Qed.

(** ** Lookups that find nothing *)

(** C4, as amended.  For the five single-entity lookups ([getProduct],
    [getDepartment], [getSingleCategory], [getSingleTax],
    [getSingleAttribute]): when the request passes validation (only
    [getProduct] has one, on description_length) and the lookup resolves to
    [null], the method issues that one lookup and answers 404 with the body
    [{ error: { status: 404, message } }], where the message is the entity
    kind, [ with id ], the id as sent, and [ does not exist]. *)
Theorem missing_entity_is_404 (m : method) (orm : ORM) (attrs : list attr)
    (req : request) (model : Model) (key kind : string) :
  single_entity m = Some (model, key, kind) ->
  (m = GetProduct -> numeric_or_absent (query req !! "description_length")) ->
  findByPk orm model (field (params req) key) (lookup_options m attrs req)
  = Ok VNull ->
  run (controller m) orm attrs req
  = (attrs,
     [Query (FindByPk model (field (params req) key) (lookup_options m attrs req));
      Json 404
        (not_found
           (kind ++ " with id " ++ ToString (field (params req) key)
            ++ " does not exist"))]).
Proof.
  intros Hm Hnum Hnull.
  destruct m; try discriminate Hm; injection Hm as <- <- <-;
    cbn [lookup_options] in *; exec.
  1: rewrite (isNaN_default_numeric 200 _ _ (Hnum eq_refl)); tidy;
     unfold product_options in Hnull.
  all: rewrite Hnull; reflexivity.
Qed.

Lemma missing_entity_is_404_witness :
  run (controller GetSingleTax) empty_orm initial_attributes tax_5
  = (initial_attributes,
     [Query (FindByPk Tax (PString "5") None);
      Json 404 (not_found "Tax with id 5 does not exist")]).
Proof.
  apply (missing_entity_is_404 GetSingleTax empty_orm initial_attributes tax_5
           Tax "tax_id" "Tax").
  - reflexivity.
  - intros H. discriminate H.
  - reflexivity.
Defined.

(** C4, as stated, fails: no product has id 999, yet a [getProduct] request
    for it with a description_length that is not numeric is answered 400, and
    the lookup is never made. *)
Lemma invalid_length_hides_missing_product :
  (forall o, findByPk empty_orm Product (PString "999") o = Ok VNull)
  /\ run (controller GetProduct) empty_orm initial_attributes
         product_999_length_abc
     = (initial_attributes,
        [Json 400
           (bad_request "description_length should be valid integer values")]).
Proof. split; reflexivity. Qed.

(** ** Response bodies *)

(** C5, as amended.  Of the responses any method sends: a 200 from
    [getAllProducts] is an object with exactly the properties paginationMeta,
    rows and status; a 200 from [searchProduct] is a bare array; a 200 from
    [getProductsByCategory] or [getProductsByDepartment] is an object with
    the single property rows; and every 404 is
    [{ error: { status: 404, message } }]. *)
Theorem response_shapes (m : method) (orm : ORM) (attrs : list attr)
    (req : request) (status : Z) (body : value) :
  In (Json status body) (snd (run (controller m) orm attrs req)) ->
  (status = 200 -> list_body m body) /\ (status = 404 -> not_found_shape body).
Proof.
  destruct m; exec; branch.
  all: intros Hin.
  all: repeat (destruct Hin as [Hin | Hin]; try discriminate Hin);
    try contradiction.
  all: injection Hin as <- <-.
  all: split; intros Hs; try discriminate Hs.
  all: cbn [list_body keys map fst]; unfold not_found_shape, not_found;
    eauto.
Qed.

Lemma response_shapes_witness : list_body GetAllProducts empty_first_page.
Proof.
  refine (proj1 (response_shapes GetAllProducts empty_orm initial_attributes
                   products_length_10 200 _ _) eq_refl).
  vm_compute. right. left. reflexivity.
Defined.

(** C5, as stated, fails: a successful [searchProduct] sends the array of
    products itself, which has none of rows, paginationMeta, status. *)
Lemma search_answers_with_a_bare_array :
  snd (run (controller SearchProduct) empty_orm initial_attributes search_shirt)
  = [Query (FindAll Product
              (Some {| attributes :=
                         Some (initial_attributes ++
                               [Literal "SUBSTRING(description, 1, 200) as description"])%list;
                       limit := Some (of_Z 20);
                       offset := Some (of_Z 0);
                       where_ := [("name", OpSubstring "shirt")];
                       include := [] |}));
     Json 200 (VArr [])]
  /\ keys (VArr []) = None.
Proof. split; reflexivity. Qed.

(** ** The module-level attribute list *)

(** Every method but [getAllProducts] leaves the module state as it found
    it. *)
Lemma module_state_kept (m : method) (orm : ORM) (attrs : list attr)
    (req : request) :
  m <> GetAllProducts -> fst (run (controller m) orm attrs req) = attrs.
Proof.
  intros Hm. destruct m; try congruence; exec; branch; reflexivity.
Qed.

(** A [getAllProducts] request that passes validation appends its literal to
    the module's own array. *)
Lemma getAllProducts_pushes (orm : ORM) (attrs : list attr) (req : request) :
  (forall body,
     ~ In (Json 400 body) (snd (run (controller GetAllProducts) orm attrs req))) ->
  fst (run (controller GetAllProducts) orm attrs req)
  = (attrs ++ [substring_literal "description"
                 (field (query req) "description_length")])%list.
Proof.
  exec; branch; intros H; try reflexivity.
  exfalso. eapply H. left. reflexivity.
Qed.

(** C6 does not hold of [getAllProducts]: the copy made by [Object.assign]
    shares the module's [attributes] array and the method pushes onto it, so
    the first request leaves the array one entry longer, and the same request
    sent again builds a different query.  ([searchProduct] and [getProduct]
    use [concat], and the two remaining list methods spread the array,
    which leave it alone.) *)
Theorem getAllProducts_changes_module_state :
  run (controller GetAllProducts) empty_orm initial_attributes products_length_10
  = (attributes_after_one,
     [Query (FindAndCountAll Product
               (products_query initial_attributes products_length_10));
      Json 200 empty_first_page])
  /\ run (controller GetAllProducts) empty_orm attributes_after_one
       products_length_10
     = (attributes_after_two,
        [Query (FindAndCountAll Product
                  (products_query attributes_after_one products_length_10));
         Json 200 empty_first_page])
  /\ attributes (products_query initial_attributes products_length_10)
     <> attributes (products_query attributes_after_one products_length_10).
Proof.
  split; [reflexivity | split; [reflexivity | discriminate]].
Qed.

(** ** Pagination *)

(** C7.  Take a request to one of the four paginated list methods that
    validation does not turn away, whose page and limit are absent, empty
    or decimal numerals, of natural numbers [p] and [l] below 2^53 (1 when
    the page is missing, 20 when the limit is), with (p - 1) * l below 2^53
    in magnitude.  The first thing it does is a query, whose limit is [l]
    and whose offset is (p - 1) * l. *)
Theorem list_query_pagination (m : method) (orm : ORM) (attrs : list attr)
    (req : request) (p l : Z) :
  paginated m = true ->
  ~ invalid m req ->
  integer_param 1 (query req !! "page") = Some p ->
  integer_param 20 (query req !! "limit") = Some l ->
  p < 2 ^ 53 ->
  l < 2 ^ 53 ->
  Z.abs ((p - 1) * l) < 2 ^ 53 ->
  exists c o rest,
    snd (run (controller m) orm attrs req) = Query c :: rest
    /\ call_options c = Some o
    /\ limit o = Some (integer l)
    /\ offset o = Some (page_offset p l).
Proof.
  intros Hm Hv Hp Hl Hpb Hlb Hb.
  destruct (param_integer 1 _ _ (or_introl eq_refl) Hp) as (Hp0 & Hpn & _).
  destruct (param_integer 20 _ _ (or_intror eq_refl) Hl) as (Hl0 & Hln & Hli).
  destruct (pagination_of_valid m orm attrs req Hm Hv)
    as (c & o & rest & Htrace & Hopts & Hoffset & Hlimit).
  exists c, o, rest. split; [exact Htrace|]. split; [exact Hopts|]. split.
  - rewrite Hlimit, Hli. f_equal. apply of_Z_integer. lia.
  - rewrite Hoffset, Hpn, Hln, offset_of_integers by lia. f_equal.
    unfold page_offset. destruct (_ && _); [reflexivity|].
    now apply of_Z_integer.
Qed.

Lemma list_query_pagination_witness :
  exists c o rest,
    snd (run (controller GetProductsByCategory) empty_orm initial_attributes
           category_2_page_3_limit_7) = Query c :: rest
    /\ call_options c = Some o
    /\ limit o = Some (integer 7)
    /\ offset o = Some (integer 14).
Proof.
  refine (list_query_pagination GetProductsByCategory empty_orm
            initial_attributes category_2_page_3_limit_7 3 7 _ _ _ _ _ _ _).
  - reflexivity.
  - refute_invalid.
  - reflexivity.
  - reflexivity.
  - lia.
  - lia.
  - vm_compute. reflexivity.
Defined.

(** C7, as stated, fails: page 2 with a limit of [1e1], which is 10, passes
    validation, and the query goes out with an offset of 10 and a limit of
    1, what [parseInt] reads of it. *)
Lemma exponent_limit_is_cut_short :
  ~ invalid GetProductsByCategory category_2_page_2_limit_1e1
  /\ query category_2_page_2_limit_1e1 !! "limit" = Some "1e1"
  /\ StringToNumber "1e1" = integer 10
  /\ snd (run (controller GetProductsByCategory) empty_orm initial_attributes
            category_2_page_2_limit_1e1)
     = [Query (FindAll ProductCategory
                 (Some {| attributes := None;
                          limit := Some (integer 1);
                          offset := Some (integer 10);
                          where_ := [("category_id", Is (PString "2"))];
                          include :=
                            [Include Product (Some "product") []
                               (Some (initial_attributes ++
                                      [Literal "SUBSTRING(description, 1, 200) as description"])%list)
                               []] |}));
        Json 200 (VObj [("rows", VArr [])])].
Proof.
  split; [refute_invalid|]. repeat split; reflexivity.
Qed.

(** Past 2^53 the offset is the double nearest to the product, which need
    not be the product: page 94906268 of 94906267. *)
Example offset_beyond_safe_integers :
  num_mul (num_sub (StringToNumber "94906268") (of_Z 1))
    (StringToNumber "94906267")
  = integer 9007199515875288
  /\ (94906268 - 1) * 94906267 = 9007199515875289.
Proof. split; reflexivity. Qed.

(** The same request, computed: page 3 of 7 skips 14 rows. *)
Example category_page_3_of_7 :
  exists rest,
    snd (run (controller GetProductsByCategory) empty_orm initial_attributes
           category_2_page_3_limit_7)
    = Query (FindAll ProductCategory
               (Some {| attributes := None;
                        limit := Some (of_Z 7);
                        offset := Some (of_Z 14);
                        where_ := [("category_id", Is (PString "2"))];
                        include :=
                          [Include Product (Some "product") []
                             (Some (initial_attributes ++
                                    [Literal "SUBSTRING(description, 1, 200) as description"])%list)
                             []] |})) :: rest.
Proof. eexists. vm_compute. reflexivity. Qed.

(** ** Errors thrown by the mapper *)

(** C8.  Whatever the method, when the query it issues is rejected with an
    error, the method has done exactly two things: issued that query, and
    called [next] with that error.  No JSON response is sent. *)
Theorem thrown_errors_are_forwarded (m : method) (orm : ORM)
    (attrs : list attr) (req : request) (c : call) (e : error) :
  In (Query c) (snd (run (controller m) orm attrs req)) ->
  rejects orm c e ->
  snd (run (controller m) orm attrs req) = [Query c; Next e].
Proof.
  destruct m; exec; branch.
  all: intros Hin Hrej.
  all: repeat (destruct Hin as [Hin | Hin]; try discriminate Hin);
    try contradiction.
  all: injection Hin as <-; cbn [rejects] in Hrej; congruence.
Qed.

Lemma thrown_errors_are_forwarded_witness :
  snd (run (controller GetAllTax) (failing_orm (DbError "connection lost"))
         initial_attributes (mk_request [] []))
  = [Query (FindAll Tax None); Next (DbError "connection lost")].
Proof.
  apply thrown_errors_are_forwarded.
  - simpl. left. reflexivity.
  - reflexivity.
Defined.

(** ** An omitted description_length *)



(** The same request to [searchProduct] goes through, with the default
    length in its literal. *)
Example search_without_description_length :
  run (controller SearchProduct) empty_orm initial_attributes
      (mk_request [("page", "2")] [])
  = (initial_attributes,
     [Query (FindAll Product
               (Some {| attributes :=
                          Some (initial_attributes ++
                                [Literal "SUBSTRING(description, 1, 200) as description"])%list;
                        limit := Some (of_Z 20);
                        offset := Some (of_Z 20);
                        where_ := [("name", OpSubstring "undefined")];
                        include := [] |}));
      Json 200 (VArr [])]).
Proof. reflexivity. Qed.

(** ** The category of a product *)

(** C10.  When the links of the product come back as rows, [getProductCategories]
    answers from the first of them alone: status 200 with that row's
    [Category] (for which the query asks name, category_id and
    department_id), not an array and not the categories of the later rows;
    with no row, status 404 and the message [Category not found]. *)
Theorem product_category_is_first_row (orm : ORM) (attrs : list attr)
    (req : request) (rows : list value) :
  findAll orm ProductCategory (Some (category_query req)) = Ok rows ->
  (forall row, In row rows -> is_object row) ->
  run (controller GetProductCategories) orm attrs req
  = (attrs,
     [Query (FindAll ProductCategory (Some (category_query req)));
      match rows with
      | first :: _ => Json 200 (property "Category" first)
      | [] => Json 404 (not_found "Category not found")
      end]).
Proof.
  intros Hrows Hobj. exec. fold (category_query req). rewrite Hrows.
  destruct rows as [|first rest]; [reflexivity|].
  destruct (Hobj first (or_introl eq_refl)) as [fields ->].
  reflexivity.
Qed.

Lemma product_category_is_first_row_witness :
  run (controller GetProductCategories) two_categories_orm initial_attributes
      product_7
  = (initial_attributes,
     [Query (FindAll ProductCategory (Some (category_query product_7)));
      Json 200 (VObj [("name", VStr "French");
                      ("category_id", VNum (of_Z 1));
                      ("department_id", VNum (of_Z 1))])]).
Proof.
  apply (product_category_is_first_row two_categories_orm initial_attributes
           product_7 _ eq_refl).
  intros row [<- | [<- | []]]; eexists; reflexivity.
Defined.

(** * Further properties *)

(** ** What the validation accepts *)

(** X1.  A method answers 400 exactly when the request is invalid for it:
    on the four list methods, a page, limit or description_length that is
    sent and is not a number (and on [getAllProducts] also a
    description_length that is not sent); on [getProduct] such a
    description_length; on no other method, ever.  Neither the mapper nor
    the module state has a say. *)
Theorem turned_away_iff_invalid (m : method) (orm : ORM) (attrs : list attr)
    (req : request) :
  (exists body, In (Json 400 body) (snd (run (controller m) orm attrs req)))
  <-> invalid m req.
Proof.
  destruct m; cbn [invalid]; exec.
  all: try match goal with
       | |- context [if (?a || ?b)%bool then _ else _] =>
           destruct (a || b)%bool eqn:Hcheck; tidy
       | |- context [if isNaN ?a then _ else _] =>
           destruct (isNaN a) eqn:Hcheck; tidy
       end.
  all: branch.
  all: split; [intros [body Hin] | intros Hinv].
  all: try (repeat (destruct Hin as [Hin | Hin]; try discriminate Hin);
            contradiction).
  all: try contradiction.
  all: try (eexists; left; reflexivity).
  all: try (apply orb_true_iff in Hcheck as [Hcheck | Hcheck];
            [apply orb_true_iff in Hcheck as [Hcheck | Hcheck] |]).
  all: try (apply orb_false_iff in Hcheck as [Hcheck Hc3];
            apply orb_false_iff in Hcheck as [Hc1 Hc2]).
  all: try (apply isNaN_or_else_iff in Hcheck; [tauto | lia]).
  all: try (apply isNaN_default_iff in Hcheck; tauto).
  all: try (apply isNaN_field_iff in Hcheck; tauto).
  all: repeat match goal with
       | H : isNaN _ = false |- _ => apply not_true_iff_false in H
       end.
  all: rewrite ?isNaN_or_else_iff, ?isNaN_default_iff, ?isNaN_field_iff
         in * by lia.
  all: tauto.
Qed.

(** ** What a request can come to *)

(** X2.  Whatever the method, the request, the mapper and the module state,
    a request comes to exactly one of five things: a 400 and no query (only
    on the validating methods), a 200 and no query (only on the two
    placeholders), one query and then a 200, one query and then a 404 (only
    on the methods that look one thing up), or one query and then [next].
    So there is never a second query, never a response together with
    [next], never two responses, and never a status other than 200, 400 and
    404. *)
Theorem one_outcome (m : method) (orm : ORM) (attrs : list attr)
    (req : request) :
  outcome m (snd (run (controller m) orm attrs req)).
Proof.
  destruct m; exec; branch;
    first [ now apply turned_away
          | now apply answered_unasked
          | now apply not_found_after
          | apply answered
          | apply forwarded ].
Qed.

(** ** Where a forwarded error comes from *)

Lemma prop_throws (k : string) (v : value) (e : error) :
  prop k v = Throw e -> exists msg, e = TypeError msg.
Proof. destruct v; cbn [prop]; intros [= <-]; eauto. Qed.

Lemma map_result_throws {A B : Type} (f : A -> result B) (xs : list A)
    (e : error) :
  map_result f xs = Throw e -> exists x, In x xs /\ f x = Throw e.
Proof.
  induction xs as [|x xs IH]; cbn [map_result]; [discriminate|].
  destruct (f x) as [y|e'] eqn:Ex.
  - destruct (map_result f xs) as [ys|e'']; [discriminate|].
    intros [= <-]. destruct (IH eq_refl) as [x' [Hin Hx']].
    exists x'. split; [right; exact Hin | exact Hx'].
  - intros [= <-]. exists x. split; [left; reflexivity | exact Ex].
Qed.

Lemma review_row_throws (r : value) (e : error) :
  Revisions.review_row r = Throw e -> exists msg, e = TypeError msg.
Proof.
  unfold Revisions.review_row.
  destruct (prop "dataValues" r) as [dv|e'] eqn:E.
  - destruct dv; try (intros [= <-]; eauto).
    destruct (prop "name" _) eqn:E'; [discriminate|].
    intros [= <-]. eapply prop_throws; eassumption.
  - intros [= <-]. eapply prop_throws; eassumption.
Qed.

Lemma attribute_row_throws (x : value) (e : error) :
  Revisions.attribute_row x = Throw e -> exists msg, e = TypeError msg.
Proof.
  unfold Revisions.attribute_row.
  repeat match goal with
  | |- context [match prop ?k ?v with _ => _ end] =>
      let E := fresh "E" in
      destruct (prop k v) eqn:E;
      [| intros [= <-]; eapply prop_throws; eassumption]
  end.
  discriminate.
Qed.

(** X3.  [next] is called with an error only after the query, and for one
    of two reasons: the mapper rejected the query with that very error, or,
    on a method that reads a property off the rows, reading it off one of
    them threw a TypeError.  A method never makes up another error, and
    never forwards one before it has queried. *)
Theorem forwarded_error_origin (m : method) (orm : ORM) (attrs : list attr)
    (req : request) (e : error) :
  In (Next e) (snd (run (controller m) orm attrs req)) ->
  exists c,
    snd (run (controller m) orm attrs req) = [Query c; Next e]
    /\ (rejects orm c e
        \/ reads_rows m = true /\ exists msg, e = TypeError msg).
Proof.
  destruct m; exec; branch; intros Hin;
    repeat (destruct Hin as [Hin | Hin]; try discriminate Hin);
    try contradiction.
  all: injection Hin as <-; eexists; split; [reflexivity|].
  all: try (left; assumption).
  all: try (right; split; [reflexivity|]).
  all: try (eapply prop_throws; eassumption).
  all: try match goal with
       | H : map_result _ _ = Throw _ |- _ =>
           apply map_result_throws in H as [x [_ H]]
       end.
  all: try (eapply prop_throws; eassumption).
  all: try (eapply review_row_throws; eassumption).
  all: try (eapply attribute_row_throws; eassumption).
  exfalso. destruct a; discriminate.
Qed.

Lemma forwarded_error_origin_witness :
  exists c,
    snd (run (controller GetProductCategories) null_row_orm initial_attributes
           product_7)
    = [Query c; Next (TypeError "Cannot read property 'Category'")]
    /\ (rejects null_row_orm c (TypeError "Cannot read property 'Category'")
        \/ reads_rows GetProductCategories = true
           /\ exists msg,
               TypeError "Cannot read property 'Category'" = TypeError msg).
Proof.
  apply forwarded_error_origin. simpl. right. left. reflexivity.
Defined.

(** ** The module state over a run of requests *)

Lemma isNaN_or_else_numeric (obj : gmap string string) (k : string) (d : Z) :
  d <> 0 ->
  isNaN (or_else (field obj k) (PInt d)) = negb (numeric (obj !! k)).
Proof.
  intros Hd. rewrite (or_else_param _ _ _ Hd). unfold param_or, numeric.
  destruct (obj !! k) as [s|]; [|apply isNaN_PInt].
  destruct (String.eqb s "") eqn:E.
  - apply String.eqb_eq in E. subst s. rewrite isNaN_PInt. reflexivity.
  - unfold isNaN. cbn [ToNumber]. destruct (StringToNumber s); reflexivity.
Qed.

Lemma run_state (m : method) (orm : ORM) (attrs : list attr) (req : request) :
  fst (run (controller m) orm attrs req) = (attrs ++ residue (m, req))%list.
Proof.
  destruct m; cbn [residue]; rewrite ?app_nil_r;
    try (apply module_state_kept; discriminate).
  exec. rewrite !isNaN_or_else_numeric by lia. unfold field.
  destruct (query req !! "description_length") as [s|].
  - replace (isNaN (PString s)) with (negb (numeric (Some s)))
      by (unfold isNaN, numeric; cbn [ToNumber];
          destruct (StringToNumber s); reflexivity).
    rewrite <- !negb_andb.
    destruct (numeric (query req !! "page") && numeric (query req !! "limit")
              && numeric (Some s)); cbn [negb]; tidy.
    + branch; reflexivity.
    + now rewrite app_nil_r.
  - replace (isNaN PUndefined) with true by reflexivity.
    rewrite orb_true_r. tidy. now rewrite app_nil_r.
Qed.

(** X4.  Over any run of requests served by one process, against any
    mapper, the module's attribute array ends as it began followed by one
    literal for each [getAllProducts] request that passed validation, in
    the order they came; no other request, and no request answered 400,
    leaves a trace in it, and nothing is ever removed.  The array thus
    grows by one entry with every successful product listing. *)
Theorem module_state_after_serving (orm : ORM) (attrs : list attr)
    (reqs : list (method * request)) :
  fst (serve orm attrs reqs) = (attrs ++ flat_map residue reqs)%list.
Proof.
  revert attrs. induction reqs as [|[m req] rest IH]; intros attrs;
    cbn [serve flat_map].
  - now rewrite app_nil_r.
  - pose proof (run_state m orm attrs req) as Hrun.
    destruct (run (controller m) orm attrs req) as [attrs' events].
    cbn [fst] in Hrun. subst attrs'.
    specialize (IH (attrs ++ residue (m, req))%list).
    destruct (serve orm _ rest) as [final later]. cbn [fst] in *.
    now rewrite IH, app_assoc.
Qed.

(** X5.  A method that does not read [productsQueryMap] does the same
    whatever the module state: every method outside the five product
    readers leaves the state alone, issues the same query and sends the
    same response before and after any number of product listings. *)
Theorem unaffected_by_module_state (m : method) (orm : ORM)
    (attrs attrs' : list attr) (req : request) :
  reads_module m = false ->
  run (controller m) orm attrs req
  = (attrs, snd (run (controller m) orm attrs' req)).
Proof.
  intros Hm. destruct m; try discriminate Hm; exec; branch; reflexivity.
Qed.

Lemma unaffected_by_module_state_witness :
  run (controller GetSingleTax) empty_orm initial_attributes tax_5
  = (initial_attributes,
     snd (run (controller GetSingleTax) empty_orm attributes_after_two tax_5)).
Proof.
  apply (unaffected_by_module_state GetSingleTax empty_orm initial_attributes
           attributes_after_two tax_5).
  reflexivity.
Defined.

(** ** What the product readers ask for *)

Lemma length_literal (m : method) (req : request) :
  match m with
  | GetAllProducts =>
      query req !! "description_length" <> None ->
      field (query req) "description_length" = length_sent m req
  | SearchProduct | GetProductsByCategory | GetProductsByDepartment =>
      or_else (default_to (PInt 200) (field (query req) "description_length"))
        (PInt 200) = length_sent m req
  | GetProduct =>
      default_to (PInt 200) (field (query req) "description_length")
      = length_sent m req
  | _ => True
  end.
Proof.
  destruct m; try exact I; unfold length_sent, field, or_else, default_to;
    destruct (query req !! "description_length") as [s|];
    cbn [ToBoolean]; try reflexivity; try congruence.
  all: destruct (String.eqb s ""); reflexivity.
Qed.

Lemma numeric_iff (sent : option string) :
  numeric sent = true <-> ~ non_numeric sent.
Proof.
  unfold numeric, non_numeric. destruct sent as [s|].
  - destruct (StringToNumber s) eqn:E; (split; [intros Ht | intros Hn]);
      try discriminate Ht; try reflexivity;
      try (intros [s' [[= <-] H]]; congruence).
    exfalso. apply Hn. eauto.
  - split; [intros _ [s [H _]]; discriminate H | reflexivity].
Qed.

Lemma residue_of_listing (req : request) :
  ~ invalid GetAllProducts req ->
  residue (GetAllProducts, req)
  = [substring_literal "description" (field (query req) "description_length")].
Proof.
  intros Hv. cbn [invalid] in Hv. cbn [residue]. unfold field.
  destruct (query req !! "description_length") as [s|] eqn:E; [|tauto].
  assert (H1 : numeric (query req !! "page") = true) by (apply numeric_iff; tauto).
  assert (H2 : numeric (query req !! "limit") = true) by (apply numeric_iff; tauto).
  assert (H3 : numeric (Some s) = true) by (apply numeric_iff; tauto).
  rewrite H1, H2, H3. reflexivity.
Qed.

Lemma reader_query (m : method) (orm : ORM) (attrs : list attr)
    (req : request) :
  reads_module m = true ->
  ~ invalid m req ->
  exists c rest,
    snd (run (controller m) orm attrs req) = Query c :: rest
    /\ product_attributes c = (attrs ++ request_attributes m req)%list.
Proof.
  intros Hm Hv. pose proof (valid_checks m req Hv) as Hc.
  pose proof (length_literal m req) as Hl.
  destruct m; try discriminate Hm; exec.
  1-4: destruct Hc as (-> & -> & ->).
  5: rewrite Hc.
  all: cbn [orb]; tidy; branch.
  all: do 2 eexists; split; [reflexivity|].
  all: cbn [product_attributes default attributes include flat_map app
            request_attributes length_column];
    rewrite ?app_nil_r, ?Hl; try reflexivity.
  all: cbn [invalid] in Hv; tauto.
Qed.

(** X6.  A product listing changes what later requests ask the database
    for.  After a [getAllProducts] request that passed validation, the next
    valid request to any of the five methods that read [productsQueryMap]
    (under any mapper) asks for the attributes the module held before, then
    the literal left behind by the listing, and only then its own: the
    stale [SUBSTRING(description, 1, n) as description] of an earlier
    request rides along in every later product query. *)
Theorem stale_literal_reaches_later_queries (m : method) (orm : ORM)
    (attrs : list attr) (listing req : request) :
  ~ invalid GetAllProducts listing ->
  reads_module m = true ->
  ~ invalid m req ->
  exists c rest,
    snd (run (controller m) orm
           (fst (run (controller GetAllProducts) orm attrs listing)) req)
    = Query c :: rest
    /\ product_attributes c
       = (attrs
          ++ [substring_literal "description"
                (field (query listing) "description_length")]
          ++ request_attributes m req)%list.
Proof.
  intros Hlisting Hm Hreq.
  destruct (reader_query m orm
              (fst (run (controller GetAllProducts) orm attrs listing)) req
              Hm Hreq) as (c & rest & Htrace & Hattrs).
  exists c, rest. split; [exact Htrace|].
  rewrite Hattrs, run_state, (residue_of_listing _ Hlisting), <- app_assoc.
  reflexivity.
Qed.

Lemma stale_literal_reaches_later_queries_witness :
  exists c rest,
    snd (run (controller GetProduct) empty_orm
           (fst (run (controller GetAllProducts) empty_orm initial_attributes
                   products_length_10)) product_7)
    = Query c :: rest
    /\ product_attributes c
       = (initial_attributes
          ++ [substring_literal "description"
                (field (query products_length_10) "description_length")]
          ++ request_attributes GetProduct product_7)%list.
Proof.
  apply (stale_literal_reaches_later_queries GetProduct empty_orm
           initial_attributes products_length_10 product_7).
  - refute_invalid.
  - reflexivity.
  - refute_invalid.
Defined.

(** The same two requests, computed: the lookup of product 7 asks for a
    second description, cut at the 10 characters of the listing before
    it. *)
Example product_lookup_after_a_listing :
  snd (run (controller GetProduct) empty_orm attributes_after_one product_7)
  = [Query (FindByPk Product (PString "7")
              (Some {| attributes :=
                         Some [Col "product_id"; Col "name"; Col "price";
                               Col "thumbnail"; Col "discounted_price";
                               Col "description";
                               Literal "SUBSTRING(description, 1, 10) as description";
                               Col "image"; Col "display"; Col "image_2";
                               Literal "SUBSTRING(description, 1, 200) as description"];
                       limit := None; offset := None;
                       where_ := []; include := [] |}));
     Json 404 (not_found "Product with id 7 does not exist")].
Proof. reflexivity. Qed.

(** ** An empty description_length *)

(** X7.  A description_length that is sent empty passes every numeric
    check, and the methods part ways on it.  [getAllProducts] and
    [getProduct] paste it into their literal as it is, and ask for
    [SUBSTRING(description, 1, ) as description]; [searchProduct] and the
    category and department lists fall back to 200. *)
Theorem empty_description_length (m : method) (orm : ORM) (attrs : list attr)
    (req : request) :
  reads_module m = true ->
  query req !! "description_length" = Some "" ->
  ~ non_numeric (query req !! "page") ->
  ~ non_numeric (query req !! "limit") ->
  exists c rest,
    snd (run (controller m) orm attrs req) = Query c :: rest
    /\ product_attributes c
       = (attrs
          ++ match m with
             | GetAllProducts =>
                 [Literal "SUBSTRING(description, 1, ) as description"]
             | GetProduct =>
                 [Col "image"; Col "display"; Col "image_2";
                  Literal "SUBSTRING(description, 1, ) as description"]
             | GetProductsByDepartment =>
                 [Literal "SUBSTRING(product.description, 1, 200) as description"]
             | _ => [Literal "SUBSTRING(description, 1, 200) as description"]
             end)%list.
Proof.
  intros Hm Hlen Hpage Hlimit.
  assert (Hv : ~ invalid m req).
  { assert (Hl : ~ non_numeric (query req !! "description_length")).
    { rewrite Hlen. intros [s [[= <-] H]]. discriminate H. }
    destruct m; try discriminate Hm; cbn [invalid]; try tauto.
    rewrite Hlen at 2. intros [H | [H | [H | H]]]; try tauto. discriminate H. }
  destruct (reader_query m orm attrs req Hm Hv) as (c & rest & Htrace & Hattrs).
  exists c, rest. split; [exact Htrace|]. rewrite Hattrs.
  destruct m; try discriminate Hm;
    unfold request_attributes, length_sent; rewrite Hlen; reflexivity.
Qed.

Lemma empty_description_length_witness :
  exists c rest,
    snd (run (controller GetAllProducts) empty_orm initial_attributes
           products_length_empty)
    = Query c :: rest
    /\ product_attributes c
       = (initial_attributes
          ++ [Literal "SUBSTRING(description, 1, ) as description"])%list.
Proof.
  apply (empty_description_length GetAllProducts empty_orm initial_attributes
           products_length_empty).
  - reflexivity.
  - reflexivity.
  - intros [s [H _]]. discriminate H.
  - intros [s [H _]]. discriminate H.
Defined.

(** ** The condition of a search *)

(** X8.  Under any mapper, a [searchProduct] request that passes validation
    asks for the products whose name meets exactly one condition on the
    text searched for: [Op.eq] when all_words is the string [on], and
    [Op.substring] for every other all_words, sent or not ([ON], [true] and
    [1] included).  The text is the query string as sent, the empty string
    included, and the nine letters [undefined] when none is sent. *)
Theorem search_condition (orm : ORM) (attrs : list attr) (req : request) :
  ~ invalid SearchProduct req ->
  exists o rest,
    snd (run (controller SearchProduct) orm attrs req)
    = Query (FindAll Product (Some o)) :: rest
    /\ (query req !! "all_words" = Some "on" ->
        where_ o = [("name", OpEq (default "undefined" (query req !! "query_string")))])
    /\ (query req !! "all_words" <> Some "on" ->
        where_ o
        = [("name", OpSubstring (default "undefined" (query req !! "query_string")))]).
Proof.
  intros Hv. destruct (valid_checks SearchProduct req Hv) as (H1 & H2 & H3).
  pose proof (all_words_on req) as Hon.
  assert (Htext : ToString (field (query req) "query_string")
                  = default "undefined" (query req !! "query_string")).
  { unfold field. destruct (query req !! "query_string"); reflexivity. }
  exec. rewrite H1, H2, H3. cbn [orb]. tidy. rewrite Htext.
  destruct (strict_eq_string (field (query req) "all_words") "on"); branch.
  all: do 2 eexists; split; [reflexivity|]; cbn [where_]; split; intros Hw.
  all: try reflexivity.
  all: try (exfalso; apply Hw; now apply Hon).
  all: apply Hon in Hw; discriminate Hw.
Qed.

Lemma search_condition_witness :
  exists o rest,
    snd (run (controller SearchProduct) empty_orm initial_attributes
           search_all_words_upper)
    = Query (FindAll Product (Some o)) :: rest
    /\ (query search_all_words_upper !! "all_words" = Some "on" ->
        where_ o
        = [("name",
            OpEq (default "undefined"
                    (query search_all_words_upper !! "query_string")))])
    /\ (query search_all_words_upper !! "all_words" <> Some "on" ->
        where_ o
        = [("name",
            OpSubstring
              (default "undefined"
                 (query search_all_words_upper !! "query_string")))]).
Proof.
  apply (search_condition empty_orm initial_attributes
           search_all_words_upper).
  refute_invalid.
Defined.

(** ** The rows of the category and department lists *)

Lemma map_prop (k : string) (xs : list value) :
  map_result (prop k) xs
  = if forallb (fun x => negb (nullish x)) xs
    then Ok (map (property k) xs)
    else Throw (TypeError ("Cannot read property '" ++ k ++ "'")).
Proof.
  induction xs as [|x xs IH]; cbn [map_result forallb map]; [reflexivity|].
  rewrite IH.
  destruct x; cbn [prop nullish negb andb property]; try reflexivity.
  all: destruct (forallb _ xs); reflexivity.
Qed.

(** X9.  [getProductsByCategory] and [getProductsByDepartment] issue one
    query, for the links of the category or department, and answer with one
    row for each link the mapper returns for it, in the mapper's order: the
    link's [product], and [undefined] for a link that carries none; no link
    is dropped or reordered.  A single link that is [null] or [undefined]
    takes the whole answer with it: nothing is sent and a TypeError goes
    to [next]. *)
Theorem rows_of_links (m : method) (orm : ORM) (attrs : list attr)
    (req : request) (links : list value) :
  m = GetProductsByCategory \/ m = GetProductsByDepartment ->
  ~ invalid m req ->
  findAll orm ProductCategory (Some (links_query m attrs req)) = Ok links ->
  if forallb (fun x => negb (nullish x)) links
  then run (controller m) orm attrs req
       = (attrs,
          [Query (FindAll ProductCategory (Some (links_query m attrs req)));
           Json 200 (VObj [("rows", VArr (map (property "product") links))])])
  else exists msg,
         run (controller m) orm attrs req
         = (attrs,
            [Query (FindAll ProductCategory (Some (links_query m attrs req)));
             Next (TypeError msg)]).
Proof.
  intros Hm Hv Hlinks. pose proof (valid_checks m req Hv) as Hc.
  pose proof (length_literal m req) as Hlen.
  revert Hlinks. unfold links_query.
  destruct Hm as [-> | ->]; destruct Hc as (H1 & H2 & H3); exec.
  all: rewrite H1, H2, H3; cbn [orb]; tidy.
  all: rewrite Hlen, limit_or_twenty, !or_else_default_param by lia.
  all: cbn [request_attributes length_column].
  all: intros ->; rewrite map_prop.
  all: destruct (forallb _ links); tidy; [reflexivity | eexists; reflexivity].
Qed.

Lemma rows_of_links_witness :
  run (controller GetProductsByCategory)
      (category_links_orm "2"
         [VObj [("product", VObj [("name", VStr "shirt")])]; VObj []])
      initial_attributes category_2_page_3_limit_7
  = (initial_attributes,
     [Query (FindAll ProductCategory
               (Some (links_query GetProductsByCategory initial_attributes
                        category_2_page_3_limit_7)));
      Json 200
        (VObj [("rows", VArr [VObj [("name", VStr "shirt")]; VUndefined])])])
  /\ exists msg,
       run (controller GetProductsByCategory)
           (category_links_orm "2"
              [VObj [("product", VObj [("name", VStr "shirt")])]; VNull])
           initial_attributes category_2_page_3_limit_7
       = (initial_attributes,
          [Query (FindAll ProductCategory
                    (Some (links_query GetProductsByCategory initial_attributes
                             category_2_page_3_limit_7)));
           Next (TypeError msg)]).
Proof.
  split.
  - apply (rows_of_links GetProductsByCategory
             (category_links_orm "2"
                [VObj [("product", VObj [("name", VStr "shirt")])]; VObj []])
             initial_attributes category_2_page_3_limit_7
             [VObj [("product", VObj [("name", VStr "shirt")])]; VObj []]).
    + left. reflexivity.
    + refute_invalid.
    + reflexivity.
  - apply (rows_of_links GetProductsByCategory
             (category_links_orm "2"
                [VObj [("product", VObj [("name", VStr "shirt")])]; VNull])
             initial_attributes category_2_page_3_limit_7
             [VObj [("product", VObj [("name", VStr "shirt")])]; VNull]).
    + left. reflexivity.
    + refute_invalid.
    + reflexivity.
Defined.

(** The mapper of the witness answers by the query: the links are those of
    category 2, and category 3 has none. *)
Example links_of_another_category :
  snd (run (controller GetProductsByCategory)
         (category_links_orm "2"
            [VObj [("product", VObj [("name", VStr "shirt")])]; VObj []])
         initial_attributes
         (mk_request [("page", "3"); ("limit", "7")] [("category_id", "3")]))
  = [Query (FindAll ProductCategory
              (Some (links_query GetProductsByCategory initial_attributes
                       (mk_request [("page", "3"); ("limit", "7")]
                          [("category_id", "3")]))));
     Json 200 (VObj [("rows", VArr [])])].
Proof. vm_compute. reflexivity. Qed.

(** ** A limit of zero, a blank limit *)

Lemma drop_ws_all (l : list ascii) :
  Forall (fun c => is_ws c = true) l -> drop_ws l = [].
Proof.
  induction 1 as [|c l Hc _ IH]; cbn [drop_ws]; [reflexivity|].
  now rewrite Hc.
Qed.

Lemma blank_conversions (s : string) :
  blank s -> StringToNumber s = Zero false /\ parseInt10 (PString s) = NaN.
Proof.
  intros [_ Hws]. unfold StringToNumber, trim, parseInt10, parseInt10_string.
  cbn [ToString]. rewrite (drop_ws_all _ Hws). split; reflexivity.
Qed.

(** X10.  A limit of white space only (a lone space, say) gets past the
    numeric check, which reads it as 0, on all four paginated list methods;
    the query then goes out with a limit that is not a number, since
    [parseInt] finds no digit in it. *)
Theorem blank_limit_is_queried_as_NaN (m : method) (orm : ORM)
    (attrs : list attr) (req : request) (s : string) :
  paginated m = true ->
  query req !! "limit" = Some s ->
  blank s ->
  ~ non_numeric (query req !! "page") ->
  ~ non_numeric (query req !! "description_length") ->
  (m = GetAllProducts -> query req !! "description_length" <> None) ->
  exists c o rest,
    snd (run (controller m) orm attrs req) = Query c :: rest
    /\ call_options c = Some o
    /\ limit o = Some NaN.
Proof.
  intros Hm Hs Hblank Hpage Hlen Hsent.
  destruct (blank_conversions s Hblank) as [Hnum Hint].
  assert (Hv : ~ invalid m req).
  { assert (Hl : ~ non_numeric (query req !! "limit")).
    { rewrite Hs. intros [s' [[= <-] H]]. congruence. }
    destruct m; try discriminate Hm; cbn [invalid]; try tauto;
      specialize (Hsent eq_refl); tauto. }
  destruct (pagination_of_valid m orm attrs req Hm Hv)
    as (c & o & rest & Htrace & Hopts & _ & Hlimit).
  exists c, o, rest. repeat split; try assumption.
  rewrite Hlimit, Hs. unfold param_or.
  destruct Hblank as [Hne _].
  destruct (String.eqb_spec s ""); [contradiction|]. now rewrite Hint.
Qed.

Lemma blank_limit_is_queried_as_NaN_witness :
  exists c o rest,
    snd (run (controller SearchProduct) empty_orm initial_attributes
           (mk_request [("limit", " ")] []))
    = Query c :: rest
    /\ call_options c = Some o
    /\ limit o = Some NaN.
Proof.
  apply (blank_limit_is_queried_as_NaN SearchProduct empty_orm
           initial_attributes (mk_request [("limit", " ")] []) " ").
  - reflexivity.
  - reflexivity.
  - split; [discriminate | repeat constructor].
  - intros [s [H _]]. discriminate H.
  - intros [s [H _]]. discriminate H.
  - discriminate.
Defined.

(** X11.  [getAllProducts] accepts a limit of zero (any numeral that writes
    0) and answers 200 with a currentPageSize of 0 and a totalPages that is
    no page count: NaN over an empty table, positive infinity over any
    other, from the division of the count by 0. *)
Theorem zero_limit_total_pages (orm : ORM) (attrs : list attr) (req : request)
    (body : value) :
  In (Json 200 body) (snd (run (controller GetAllProducts) orm attrs req)) ->
  numeral_param 20 (query req !! "limit") = Some 0 ->
  exists rows count,
    findAndCountAll orm Product (products_query attrs req) = Ok (rows, count)
    /\ body
       = pagination_body
           (parseInt10 (param_or 1 (query req !! "page")))
           (Zero false)
           (if (count =? 0)%N then NaN else Inf false)
           (of_Z (Z.of_N count)) rows.
Proof.
  unfold products_query. exec.
  rewrite !or_else_param by lia.
  branch; intros Hin Hzero;
    repeat (destruct Hin as [Hin | Hin]; try discriminate Hin);
    try contradiction.
  injection Hin as <-. do 2 eexists. split; [reflexivity|].
  destruct (param_numeral 20 _ _ (or_intror eq_refl) Hzero) as [-> ->].
  change (of_Z 0) with (Zero false).
  destruct n as [|p]; [reflexivity|].
  destruct (of_Z_positive (Z.of_N (N.pos p)) ltac:(lia))
    as [-> | [q [-> Hq]]]; cbn [num_div Math_ceil N.eqb]; [reflexivity|].
  rewrite Hq. reflexivity.
Qed.

Lemma zero_limit_total_pages_witness :
  exists rows count,
    findAndCountAll (counting_orm 101) Product
      (products_query initial_attributes
         (mk_request [("description_length", "10"); ("limit", "0")] []))
    = Ok (rows, count)
    /\ pagination_body (of_Z 1) (Zero false) (Inf false) (of_Z 101) []
       = pagination_body
           (parseInt10
              (param_or 1
                 (query (mk_request [("description_length", "10"); ("limit", "0")] [])
                  !! "page")))
           (Zero false)
           (if (count =? 0)%N then NaN else Inf false)
           (of_Z (Z.of_N count)) rows.
Proof.
  apply (zero_limit_total_pages (counting_orm 101) initial_attributes
           (mk_request [("description_length", "10"); ("limit", "0")] [])).
  - vm_compute. right. left. reflexivity.
  - reflexivity.
Defined.

(** ** Reviews *)

Lemma assoc_set_field_eq (k : string) (v : value) (fs : list (string * value)) :
  assoc k (Revisions.set_field k v fs) = Some v.
Proof.
  induction fs as [|[k' v'] fs IH]; cbn [Revisions.set_field assoc].
  - now rewrite String.eqb_refl.
  - destruct (String.eqb k k') eqn:E; cbn [assoc].
    + now rewrite String.eqb_refl.
    + now rewrite E.
Qed.

Lemma assoc_set_field_ne (k k' : string) (v : value)
    (fs : list (string * value)) :
  k <> k' -> assoc k' (Revisions.set_field k v fs) = assoc k' fs.
Proof.
  intros Hne. assert (Hkk : String.eqb k' k = false).
  { apply String.eqb_neq. congruence. }
  induction fs as [|[k'' v''] fs IH]; cbn [Revisions.set_field assoc].
  - now rewrite Hkk.
  - destruct (String.eqb k k'') eqn:E; cbn [assoc].
    + apply String.eqb_eq in E. subst k''. now rewrite Hkk.
    + now rewrite IH.
Qed.

Lemma assoc_without_field_eq (k : string) (fs : list (string * value)) :
  assoc k (Revisions.without_field k fs) = None.
Proof.
  unfold Revisions.without_field.
  induction fs as [|[k' v'] fs IH]; cbn [List.filter assoc fst]; [reflexivity|].
  destruct (String.eqb k k') eqn:E; cbn [negb assoc]; [exact IH|].
  now rewrite E.
Qed.

Lemma assoc_without_field_ne (k k' : string) (fs : list (string * value)) :
  k <> k' -> assoc k' (Revisions.without_field k fs) = assoc k' fs.
Proof.
  intros Hne. unfold Revisions.without_field.
  induction fs as [|[k'' v''] fs IH]; cbn [List.filter assoc fst]; [reflexivity|].
  destruct (String.eqb k k'') eqn:E; cbn [negb assoc].
  - apply String.eqb_eq in E. subst k''.
    destruct (String.eqb_spec k' k); [congruence | exact IH].
  - now rewrite IH.
Qed.

Lemma review_row_cases (r : value) :
  match Revisions.review_row r with
  | Ok out =>
      has_product r = true
      /\ exists fields product,
           property "dataValues" r = VObj fields
           /\ assoc "Product" fields = Some product
           /\ out = VObj (Revisions.set_field "name" (property "name" product)
                            (Revisions.without_field "Product" fields))
  | Throw e => has_product r = false /\ exists msg, e = TypeError msg
  end.
Proof.
  unfold Revisions.review_row, has_product.
  destruct r as [| | | | | |rf]; cbn [prop property];
    try (split; [reflexivity | eauto]).
  destruct (default VUndefined (assoc "dataValues" rf)) as [| | | | | |fields];
    try (split; [reflexivity | eauto]).
  destruct (assoc "Product" fields) as [product|] eqn:Ep; cbn [default];
    [|split; [reflexivity | eauto]].
  destruct product; cbn [prop property nullish negb];
    try (split; [reflexivity | eauto]); split; try reflexivity; eauto.
Qed.

(** X12.  What [getProductReviews] makes of one review: the review's own
    columns as they were, with the product's [name] under [name] (in
    place of any [name] the review had itself) and the nested [Product]
    gone.  It comes to that for a review that carries its product, and to
    a TypeError for every other. *)
Theorem review_as_sent (r out : value) :
  Revisions.review_row r = Ok out ->
  exists fields product,
    property "dataValues" r = VObj fields
    /\ assoc "Product" fields = Some product
    /\ property "name" out = property "name" product
    /\ property "Product" out = VUndefined
    /\ forall k, k <> "name" -> k <> "Product" ->
         property k out = property k (VObj fields).
Proof.
  intros Hrow. pose proof (review_row_cases r) as H. rewrite Hrow in H.
  destruct H as [_ (fields & product & Hdv & Hp & ->)].
  exists fields, product. repeat split; try assumption; cbn [property].
  - now rewrite assoc_set_field_eq.
  - rewrite assoc_set_field_ne by discriminate.
    now rewrite assoc_without_field_eq.
  - intros k Hn Hp'. rewrite assoc_set_field_ne by congruence.
    rewrite assoc_without_field_ne by congruence. reflexivity.
Qed.

Lemma review_as_sent_witness :
  exists fields product,
    property "dataValues" (review_of (VObj [("name", VStr "shirt")]))
    = VObj fields
    /\ assoc "Product" fields = Some product
    /\ property "name"
         (VObj [("name", VStr "shirt"); ("review", VStr "fine");
                ("rating", VNum (of_Z 4))])
       = property "name" product
    /\ property "Product"
         (VObj [("name", VStr "shirt"); ("review", VStr "fine");
                ("rating", VNum (of_Z 4))])
       = VUndefined
    /\ forall k, k <> "name" -> k <> "Product" ->
         property k
           (VObj [("name", VStr "shirt"); ("review", VStr "fine");
                  ("rating", VNum (of_Z 4))])
         = property k (VObj fields).
Proof.
  apply (review_as_sent (review_of (VObj [("name", VStr "shirt")]))).
  reflexivity.
Defined.

Lemma map_result_all {A B : Type} (f : A -> result B) (ok : A -> bool)
    (xs : list A) :
  (forall x, match f x with Ok _ => ok x = true | Throw _ => ok x = false end) ->
  match map_result f xs with
  | Ok ys => forallb ok xs = true /\ length ys = length xs
  | Throw e => forallb ok xs = false /\ exists x, In x xs /\ f x = Throw e
  end.
Proof.
  intros Hf. induction xs as [|x xs IH]; cbn [map_result forallb].
  - split; reflexivity.
  - pose proof (Hf x) as Hx. destruct (f x) as [y|e] eqn:Ex; rewrite Hx.
    + destruct (map_result f xs) as [ys|e]; cbn [andb].
      * destruct IH as [-> Hlen]. split; [reflexivity|]. cbn. now rewrite Hlen.
      * destruct IH as [-> (x' & Hin & Hx')]. split; [reflexivity|].
        exists x'. split; [right; exact Hin | exact Hx'].
    + split; [reflexivity|]. exists x. split; [left; reflexivity | exact Ex].
Qed.

(** X13.  [getProductReviews] answers all or nothing.  When every review
    the mapper returned carries its product, the answer is 200 with one
    entry for each review; when a single one does not (the product was not
    loaded, or is [null]), no list is sent at all and a TypeError goes to
    [next]. *)
Theorem reviews_all_or_nothing (orm : ORM) (attrs : list attr) (req : request)
    (reviews : list value) :
  findAll orm Review (Some (reviews_query req)) = Ok reviews ->
  if forallb has_product reviews
  then exists entries,
         run (controller RevGetProductReviews) orm attrs req
         = (attrs,
            [Query (FindAll Review (Some (reviews_query req)));
             Json 200 (VArr entries)])
         /\ length entries = length reviews
  else exists msg,
         run (controller RevGetProductReviews) orm attrs req
         = (attrs,
            [Query (FindAll Review (Some (reviews_query req)));
             Next (TypeError msg)]).
Proof.
  intros Hres. exec. fold (reviews_query req). rewrite Hres.
  pose proof (map_result_all Revisions.review_row has_product reviews) as Hall.
  destruct (map_result Revisions.review_row reviews) as [entries|e].
  - destruct Hall as [-> Hlen].
    { intros x. pose proof (review_row_cases x) as Hx.
      destruct (Revisions.review_row x); tauto. }
    exists entries. split; [reflexivity | exact Hlen].
  - destruct Hall as [-> (x & _ & Hx)].
    { intros x. pose proof (review_row_cases x) as Hx.
      destruct (Revisions.review_row x); tauto. }
    destruct (review_row_throws _ _ Hx) as [msg ->]. exists msg. reflexivity.
Qed.

Lemma reviews_all_or_nothing_witness :
  exists msg,
    run (controller RevGetProductReviews)
        (reviews_orm [review_of (VObj [("name", VStr "shirt")]); review_of VNull])
        initial_attributes product_7
    = (initial_attributes,
       [Query (FindAll Review (Some (reviews_query product_7)));
        Next (TypeError msg)]).
Proof.
  exact (reviews_all_or_nothing
           (reviews_orm [review_of (VObj [("name", VStr "shirt")]); review_of VNull])
           initial_attributes product_7
           [review_of (VObj [("name", VStr "shirt")]); review_of VNull] eq_refl).
Defined.

(** ** The attributes of a product *)

Lemma prop_property (k : string) (v : value) :
  nullish v = false -> prop k v = Ok (property k v).
Proof. destruct v; cbn; intros H; try discriminate H; reflexivity. Qed.

Lemma attribute_row_cases (x : value) :
  match Revisions.attribute_row x with
  | Ok out => complete_link x = true /\ out = link_summary x
  | Throw e => complete_link x = false
  end.
Proof.
  unfold Revisions.attribute_row, complete_link, link_summary.
  destruct (nullish x) eqn:Nx.
  { destruct x; try discriminate Nx; reflexivity. }
  rewrite !(prop_property _ x Nx). cbn [negb andb].
  destruct (nullish (property "AttributeValue" x)) eqn:Nav.
  { destruct (property "AttributeValue" x); try discriminate Nav; reflexivity. }
  rewrite !(prop_property _ _ Nav). cbn [negb andb].
  destruct (nullish (property "attribute_type" (property "AttributeValue" x)))
    eqn:Nty.
  { destruct (property "attribute_type" (property "AttributeValue" x));
      try discriminate Nty; reflexivity. }
  rewrite (prop_property _ _ Nty). split; reflexivity.
Qed.

Lemma map_attribute_rows (links : list value) :
  match map_result Revisions.attribute_row links with
  | Ok entries =>
      forallb complete_link links = true /\ entries = map link_summary links
  | Throw e =>
      forallb complete_link links = false /\ exists msg, e = TypeError msg
  end.
Proof.
  induction links as [|x links IH]; cbn [map_result forallb map].
  - split; reflexivity.
  - pose proof (attribute_row_cases x) as Hx.
    destruct (Revisions.attribute_row x) as [out|e] eqn:Ex.
    + destruct Hx as [-> ->]. cbn [andb].
      destruct (map_result Revisions.attribute_row links) as [entries|e].
      * destruct IH as [-> ->]. split; reflexivity.
      * exact IH.
    + rewrite Hx. split; [reflexivity|].
      eapply attribute_row_throws; eassumption.
Qed.

(** X14.  The implemented [getProductAttributes] answers from the link rows
    of the product: when each row carries its attribute value and that
    value its attribute type, the answer is 200 with, for each row and in
    order, exactly [attribute_value_id], [attribute_value] and
    [attribute_name]; when one row lacks either, nothing is sent and a
    TypeError goes to [next].  A product with no attribute gets 200 and an
    empty list, not a 404. *)
Theorem product_attributes_all_or_nothing (orm : ORM) (attrs : list attr)
    (req : request) (links : list value) :
  findAll orm ProductAttribute (Some (product_attributes_query req)) = Ok links ->
  if forallb complete_link links
  then run (controller RevGetProductAttributes) orm attrs req
       = (attrs,
          [Query (FindAll ProductAttribute (Some (product_attributes_query req)));
           Json 200 (VArr (map link_summary links))])
  else exists msg,
         run (controller RevGetProductAttributes) orm attrs req
         = (attrs,
            [Query (FindAll ProductAttribute
                      (Some (product_attributes_query req)));
             Next (TypeError msg)]).
Proof.
  intros Hres. exec. fold (product_attributes_query req). rewrite Hres.
  pose proof (map_attribute_rows links) as Hall.
  destruct (map_result Revisions.attribute_row links) as [entries|e].
  - destruct Hall as [-> ->]. reflexivity.
  - destruct Hall as [-> [msg ->]]. exists msg. reflexivity.
Qed.

Lemma product_attributes_all_or_nothing_witness :
  run (controller RevGetProductAttributes)
      (product_links_orm "7"
         [attribute_link 1 "S" "Size"; attribute_link 6 "White" "Color"])
      initial_attributes product_7
  = (initial_attributes,
     [Query (FindAll ProductAttribute (Some (product_attributes_query product_7)));
      Json 200
        (VArr [VObj [("attribute_value_id", VNum (of_Z 1));
                     ("attribute_value", VStr "S");
                     ("attribute_name", VStr "Size")];
               VObj [("attribute_value_id", VNum (of_Z 6));
                     ("attribute_value", VStr "White");
                     ("attribute_name", VStr "Color")]])])
  /\ exists msg,
       run (controller RevGetProductAttributes)
           (product_links_orm "7" [attribute_link 1 "S" "Size"; bare_link 6])
           initial_attributes product_7
       = (initial_attributes,
          [Query (FindAll ProductAttribute
                    (Some (product_attributes_query product_7)));
           Next (TypeError msg)]).
Proof.
  split.
  - exact (product_attributes_all_or_nothing
             (product_links_orm "7"
                [attribute_link 1 "S" "Size"; attribute_link 6 "White" "Color"])
             initial_attributes product_7
             [attribute_link 1 "S" "Size"; attribute_link 6 "White" "Color"]
             eq_refl).
  - exact (product_attributes_all_or_nothing
             (product_links_orm "7" [attribute_link 1 "S" "Size"; bare_link 6])
             initial_attributes product_7
             [attribute_link 1 "S" "Size"; bare_link 6] eq_refl).
Defined.

(** The same mapper asked for another product: 200 and an empty list. *)
Example product_without_attributes :
  snd (run (controller RevGetProductAttributes)
         (product_links_orm "7"
            [attribute_link 1 "S" "Size"; attribute_link 6 "White" "Color"])
         initial_attributes (mk_request [] [("product_id", "8")]))
  = [Query (FindAll ProductAttribute
              (Some (product_attributes_query
                       (mk_request [] [("product_id", "8")]))));
     Json 200 (VArr [])].
Proof. vm_compute. reflexivity. Qed.

(** ** The values of an attribute *)

(** X15.  [getAttributeValues] answers a lookup that resolves without ever
    calling [next]: with 200 and the [AttributeValues] of the attribute
    found, the list alone and not the attribute around it; and, when none
    is found, with the very 404 [getSingleAttribute] sends for the same
    id. *)
Theorem attribute_values_or_404 (orm : ORM) (attrs : list attr)
    (req : request) (found : value) :
  findByPk orm Attribute (field (params req) "attribute_id")
    (Some attribute_values_options) = Ok found ->
  run (controller GetAttributeValues) orm attrs req
  = (attrs,
     [Query (FindByPk Attribute (field (params req) "attribute_id")
               (Some attribute_values_options));
      if truthy found
      then Json 200 (property "AttributeValues" found)
      else Json 404
             (not_found
                ("Attribute with id "
                 ++ ToString (field (params req) "attribute_id")
                 ++ " does not exist"))]).
Proof.
  intros Hres. exec. fold attribute_values_options. rewrite Hres.
  destruct (truthy found) eqn:Ht; [|reflexivity].
  rewrite prop_property; [reflexivity|]. destruct found; try reflexivity;
    discriminate Ht.
Qed.

Lemma attribute_values_or_404_witness :
  run (controller GetAttributeValues) (found_orm colour_attribute)
      initial_attributes attribute_2
  = (initial_attributes,
     [Query (FindByPk Attribute (PString "2") (Some attribute_values_options));
      Json 200 (VArr [VStr "Red"; VStr "Blue"])]).
Proof.
  exact (attribute_values_or_404 (found_orm colour_attribute)
           initial_attributes attribute_2 colour_attribute eq_refl).
Defined.
